(** * CommitEventListener (fabric-network/lib/impl/event/commiteventlistener.js)

    A shallow embedding of the commit event listener: the listener object,
    the event hubs it shares with other listeners, the options object it
    shares with its caller, and the calls it makes to its collaborators
    (base listener class, event hub, event hub manager, caller callback).

    A method call is modelled as a state transformer over the listener
    and the world, with an outcome that is either a normal return or a
    thrown JavaScript value (for the async methods: the rejection of the
    promise).  A call is run to its end: what other tasks may do at the
    awaits of [register] is not part of the model. *)

From Stdlib Require Import ZArith NArith String List Ascii DecimalString SpecFloat.
From stdpp Require Import base option list gmap strings.

Open Scope string_scope.
Open Scope list_scope.

(** ** JavaScript values *)

(** A number is an IEEE 754 double: NaN, the two infinities, minus zero,
    the integral doubles by their value, and the other finite doubles as
    an odd numerator times a negative power of two.  [Int z] and
    [Frac m e] stand for a number when their value is a double. *)
Inductive jsnum : Type :=
| NaN
| Int (z : Z)
| NegZero
| Infinity (negative : bool)
| Frac (m e : Z).

Inductive jsval : Type :=
| VUndefined
| VNull
| VBool (b : bool)
| VNum (n : jsnum)
| VStr (s : string)
| VError (message : string)       (* new Error(message) *)
| VTypeError (message : string).  (* raised by the language on a bad access *)

(** ToBoolean, as used by [if (x)] and [!x]. *)
Definition truthy (v : jsval) : bool :=
  match v with
  | VUndefined | VNull => false
  | VBool b => b
  | VNum NaN => false
  | VNum (Int z) => negb (z =? 0)%Z
  | VNum NegZero => false
  | VNum (Infinity _) => true
  | VNum (Frac m _) => negb (m =? 0)%Z
  | VStr s => negb (String.eqb s "")
  | VError _ | VTypeError _ => true
  end.

(** [typeof v], for the kinds of value above. *)
Definition typeof (v : jsval) : string :=
  match v with
  | VUndefined => "undefined"
  | VNull => "object"
  | VBool _ => "boolean"
  | VNum _ => "number"
  | VStr _ => "string"
  | VError _ | VTypeError _ => "object"
  end.

(** *** [Number(v)], line 68

    ToNumber of the language.  A string is its UTF-8 text; it is read as
    a StringNumericLiteral: blanks stripped at both ends, then a decimal
    literal (sign, digits, fraction, exponent, [Infinity]) or a binary,
    octal or hexadecimal integer literal, and the value is rounded to the
    nearest double, ties to even, by the Standard Library's IEEE 754
    rounding ([SpecFloat]).  Anything else is NaN. *)

(** UTF-8 text to code points, for well-formed text; a byte that cannot
    start a character is read as U+FFFD. *)
Fixpoint utf8_decode (bytes : list N) : list N :=
  match bytes with
  | [] => []
  | b :: r =>
      if (b <? 128)%N then b :: utf8_decode r
      else if ((192 <=? b) && (b <? 224))%N then
        match r with
        | c1 :: r1 => ((b - 192) * 64 + (c1 - 128))%N :: utf8_decode r1
        | _ => [65533%N]
        end
      else if ((224 <=? b) && (b <? 240))%N then
        match r with
        | c1 :: c2 :: r2 =>
            ((b - 224) * 4096 + (c1 - 128) * 64 + (c2 - 128))%N :: utf8_decode r2
        | _ => [65533%N]
        end
      else if ((240 <=? b) && (b <? 248))%N then
        match r with
        | c1 :: c2 :: c3 :: r3 =>
            ((b - 240) * 262144 + (c1 - 128) * 4096 + (c2 - 128) * 64 + (c3 - 128))%N
              :: utf8_decode r3
        | _ => [65533%N]
        end
      else 65533%N :: utf8_decode r
  end.

Definition code_points (s : string) : list N :=
  utf8_decode (map N_of_ascii (list_ascii_of_string s)).

(** StrWhiteSpaceChar: WhiteSpace (TAB, VT, FF, SP, NBSP, ZWNBSP and the
    space separators) and LineTerminator (LF, CR, LS, PS). *)
Definition is_StrWhiteSpaceChar (c : N) : bool :=
  ((9 <=? c) && (c <=? 13) || (c =? 32) || (c =? 160) || (c =? 5760)
   || (8192 <=? c) && (c <=? 8202) || (c =? 8232) || (c =? 8233) || (c =? 8239)
   || (c =? 8287) || (c =? 12288) || (c =? 65279))%N.

Fixpoint drop_space (l : list N) : list N :=
  match l with
  | c :: r => if is_StrWhiteSpaceChar c then drop_space r else l
  | [] => []
  end.

Definition trim_space (l : list N) : list N :=
  rev (drop_space (rev (drop_space l))).

Definition decimal_digit (c : N) (d : Decimal.uint) : option Decimal.uint :=
  match c with
  | 48 => Some (Decimal.D0 d) | 49 => Some (Decimal.D1 d)
  | 50 => Some (Decimal.D2 d) | 51 => Some (Decimal.D3 d)
  | 52 => Some (Decimal.D4 d) | 53 => Some (Decimal.D5 d)
  | 54 => Some (Decimal.D6 d) | 55 => Some (Decimal.D7 d)
  | 56 => Some (Decimal.D8 d) | 57 => Some (Decimal.D9 d)
  | _ => None
  end%N.

(** The longest run of decimal digits at the front, and what follows. *)
Fixpoint span_digits (l : list N) : Decimal.uint * list N :=
  match l with
  | c :: r =>
      let '(d, rest) := span_digits r in
      match decimal_digit c d with
      | Some d' => (d', rest)
      | None => (Decimal.Nil, l)
      end
  | [] => (Decimal.Nil, [])
  end.

(** A finite double as a number of the model: integral values as [Int],
    minus zero apart, the others as an odd mantissa times a negative
    power of two. *)
Fixpoint odd_part (m : positive) (e : Z) : positive * Z :=
  match m with
  | xO p => if (e <? 0)%Z then odd_part p (e + 1)%Z else (m, e)
  | _ => (m, e)
  end.

Definition jsnum_of_double (f : spec_float) : jsnum :=
  match f with
  | S754_nan => NaN
  | S754_zero false => Int 0
  | S754_zero true => NegZero
  | S754_infinity s => Infinity s
  | S754_finite s m e =>
      let '(m', e') := odd_part m e in
      let z := if s then Zneg m' else Zpos m' in
      if (0 <=? e')%Z then Int (z * 2 ^ e') else Frac z e'
  end.

(** The double nearest to [num * 10^e10], ties to even, with the sign
    [neg]: the Number value of a mathematical value. *)
Definition nearest_double (neg : bool) (num : N) (e10 : Z) : jsnum :=
  match num with
  | N0 => if neg then NegZero else Int 0
  | Npos p =>
      if (309 <=? e10)%Z then Infinity neg
      else if (e10 + Z.of_N (N.size num) <=? -324)%Z
      then (if neg then NegZero else Int 0)
      else if (0 <=? e10)%Z then
        let m := (Zpos p * 10 ^ e10)%Z in
        if (m <=? 9007199254740992)%Z
        then Int (if neg then - m else m)
        else jsnum_of_double (binary_round 53 1024 neg (Z.to_pos m) 0)
      else
        let den := (10 ^ (- e10))%Z in
        let s := (64 + Z.log2 den + 1)%Z in
        let '(q, r) := Z.div_eucl (Z.shiftl (Zpos p) s) den in
        jsnum_of_double (binary_round_aux 53 1024 neg q (- s) (new_location den r))
  end.

Definition radix_digit (c : N) : option N :=
  if ((48 <=? c) && (c <=? 57))%N then Some (c - 48)%N
  else if ((97 <=? c) && (c <=? 102))%N then Some (c - 87)%N
  else if ((65 <=? c) && (c <=? 70))%N then Some (c - 55)%N
  else None.

Fixpoint radix_value (radix acc : N) (l : list N) : option N :=
  match l with
  | [] => Some acc
  | c :: r =>
      match radix_digit c with
      | Some k => if (k <? radix)%N then radix_value radix (acc * radix + k)%N r else None
      | None => None
      end
  end.

Definition NonDecimalIntegerLiteral (radix : N) (digits : list N) : jsnum :=
  match digits with
  | [] => NaN
  | _ => match radix_value radix 0 digits with
         | Some v => nearest_double false v 0
         | None => NaN
         end
  end.

Definition is_nil (d : Decimal.uint) : bool :=
  match d with Decimal.Nil => true | _ => false end.

Definition Infinity_text : list N := [73; 110; 102; 105; 110; 105; 116; 121]%N.

Definition list_N_eqb (a b : list N) : bool :=
  (length a =? length b)%nat && forallb (fun p => (fst p =? snd p)%N) (combine a b).

(** StrUnsignedDecimalLiteral, with the sign that came before it. *)
Definition StrUnsignedDecimalLiteral (neg : bool) (l : list N) : jsnum :=
  let '(ip, r1) := span_digits l in
  let '(fp, r2) := match r1 with
                   | 46%N :: r => span_digits r
                   | _ => (Decimal.Nil, r1)
                   end in
  if is_nil ip && is_nil fp then
    (if list_N_eqb l Infinity_text then Infinity neg else NaN)
  else
    let mantissa := (N.of_uint ip * 10 ^ N.of_nat (Decimal.nb_digits fp) + N.of_uint fp)%N in
    let shift := Z.of_nat (Decimal.nb_digits fp) in
    match r2 with
    | [] => nearest_double neg mantissa (- shift)
    | c :: r3 =>
        if ((c =? 101) || (c =? 69))%N then
          let '(eneg, r4) := match r3 with
                             | 43%N :: r => (false, r)
                             | 45%N :: r => (true, r)
                             | _ => (false, r3)
                             end in
          let '(ep, r5) := span_digits r4 in
          match is_nil ep, r5 with
          | false, [] =>
              let e := Z.of_N (N.of_uint ep) in
              nearest_double neg mantissa ((if eneg then - e else e) - shift)
          | _, _ => NaN
          end
        else NaN
    end.

(** StringToNumber. *)
Definition StringToNumber (s : string) : jsnum :=
  match trim_space (code_points s) with
  | [] => Int 0
  | 48%N :: c :: r =>
      if ((c =? 120) || (c =? 88))%N then NonDecimalIntegerLiteral 16 r
      else if ((c =? 111) || (c =? 79))%N then NonDecimalIntegerLiteral 8 r
      else if ((c =? 98) || (c =? 66))%N then NonDecimalIntegerLiteral 2 r
      else StrUnsignedDecimalLiteral false (48%N :: c :: r)
  | 43%N :: r => StrUnsignedDecimalLiteral false r
  | 45%N :: r => StrUnsignedDecimalLiteral true r
  | l => StrUnsignedDecimalLiteral false l
  end.

(** The code points of a decimal numeral. *)
Fixpoint uint_codes (d : Decimal.uint) : list N :=
  match d with
  | Decimal.Nil => []
  | Decimal.D0 d => 48 :: uint_codes d | Decimal.D1 d => 49 :: uint_codes d
  | Decimal.D2 d => 50 :: uint_codes d | Decimal.D3 d => 51 :: uint_codes d
  | Decimal.D4 d => 52 :: uint_codes d | Decimal.D5 d => 53 :: uint_codes d
  | Decimal.D6 d => 54 :: uint_codes d | Decimal.D7 d => 55 :: uint_codes d
  | Decimal.D8 d => 56 :: uint_codes d | Decimal.D9 d => 57 :: uint_codes d
  end%N.

(** [Number(v)]: ToNumber.  An error object is converted through its
    text, ["Error: ..."], which is no numeric literal. *)
Definition Number (v : jsval) : jsnum :=
  match v with
  | VUndefined => NaN
  | VNull => Int 0
  | VBool b => Int (if b then 1 else 0)
  | VNum n => n
  | VStr s => StringToNumber s
  | VError _ | VTypeError _ => NaN
  end.

(** ** Objects *)

(** A plain options object: its own enumerable properties. *)
Abbreviation Options := (gmap string jsval).

(** [o.k] *)
Definition prop (o : Options) (k : string) : jsval :=
  default VUndefined (o !! k).

(** [Object.assign(target, source)] on plain objects: every own property
    of [source] is written over [target]. *)
Definition Object_assign (target source : Options) : Options :=
  source ∪ target.

Definition loc := nat.      (* identity of an options object *)
Definition hubref := nat.   (* identity of an event hub object *)
Definition peer := string.  (* identity of a peer, the hub's [_peer] *)

(** ** The hub-side registration record and the event hub *)

(** Modelled from the spec: the record an event hub creates when a
    transaction watch is installed (class EventRegistration of
    fabric-client's ChannelEventHub.js, which is missing here).  It holds
    the handlers, here named by the listener they are bound to, and the
    delivery options given at installation, such as auto-unregister. *)
Record Registration : Type := {
  reg_handlers : string;
  reg_options : Options;
}.

(** [registration.unregister] *)
Definition reg_unregister (r : Registration) : jsval :=
  prop (reg_options r) "unregister".

(** Modelled from the spec: the event hub as the listener consumes it
    (fabric-client's ChannelEventHub.js is missing here): the peer it is
    bound to, its lookup table of active registrations by transaction id
    (read as a map by its own keys), and the last [connect] request it
    received. *)
Record EventHub : Type := {
  _peer : peer;
  _transactionRegistrations : gmap string Registration;
  _connect : option bool;
}.

#[global] Instance EventHub_inhabited : Inhabited EventHub :=
  populate {| _peer := ""; _transactionRegistrations := ∅; _connect := None |}.

Abbreviation Hubs := (gmap hubref EventHub).

(** Modelled from the spec: the event hub manager (eventhubmanager.js is
    missing here) hands out hub handles; which handle it hands out, and
    what it does to the arena of hubs while doing so, is its own
    decision.  Every method is a function of the arena. *)
Record EventHubManager : Type := {
  getEventHub : peer -> bool -> Hubs -> hubref * Hubs;
  getFixedEventHub : peer -> Hubs -> hubref * Hubs;
  getReplayEventHub : Hubs -> hubref * Hubs;
}.

(** ** The trace of calls the listener makes *)

Inductive LogEntry : Type :=
| LogNoEventHub                                   (* line 37 *)
| LogAlreadyRegistered                            (* line 41 *)
| LogOnEvent (txid : jsval)                       (* line 67 *)
| LogOnEventCallbackError (err : jsval)           (* line 73 *)
| LogOnError (peerAddr : string) (error : jsval). (* line 81 *)

Inductive Call : Type :=
| BaseRegister (name : string)
| BaseUnregister (name : string)
| GetEventHub (p : peer) (forceNew : bool)
| GetFixedEventHub (p : peer)
| GetReplayEventHub
| RegisterTxEvent (h : hubref) (txid : string) (opts : Options)
| UnregisterTxEvent (h : hubref) (txid : string)
| Connect (h : hubref) (fullBlock : bool)
| GetPeerAddr (h : hubref)
| EventCallback (args : list jsval)
| LoggerDebug (e : LogEntry).

(** Calls that reach the event hub manager or an event hub. *)
Definition is_hub_call (c : Call) : bool :=
  match c with
  | GetEventHub _ _ | GetFixedEventHub _ | GetReplayEventHub
  | RegisterTxEvent _ _ _ | UnregisterTxEvent _ _ | Connect _ _
  | GetPeerAddr _ => true
  | BaseRegister _ | BaseUnregister _ | EventCallback _ | LoggerDebug _ => false
  end.

Definition is_callback (c : Call) : bool :=
  match c with EventCallback _ => true | _ => false end.


(** ** The listener and the world around it *)

(** What a call of the caller's callback does, as the listener sees it:
    it returns, or it throws.  A callback that calls back into the
    listener is not modelled. *)
Inductive CallbackOutcome : Type :=
| CbReturns
| CbThrows (e : jsval).

Record Listener : Type := {
  transactionId : string;
  listenerName : string;
  options : loc;                          (* a reference: the caller's object *)
  eventCallback : list jsval -> CallbackOutcome;
  eventHub : option hubref;               (* a reference, or null *)
  _registration : option Registration;
  _registered : bool;
  _filtered : jsval;
}.

Record World : Type := {
  objects : gmap loc Options;   (* the options objects, by identity *)
  hubs : Hubs;                  (* the event hubs, by identity *)
  manager : EventHubManager;    (* network.getEventHubManager() *)
  calls : list Call;            (* the calls made so far, oldest first *)
}.

Definition set_eventHub (h : option hubref) (l : Listener) : Listener :=
  {| transactionId := transactionId l; listenerName := listenerName l;
     options := options l; eventCallback := eventCallback l;
     eventHub := h; _registration := _registration l;
     _registered := _registered l; _filtered := _filtered l |}.

Definition set_registration (r : option Registration) (l : Listener) : Listener :=
  {| transactionId := transactionId l; listenerName := listenerName l;
     options := options l; eventCallback := eventCallback l;
     eventHub := eventHub l; _registration := r;
     _registered := _registered l; _filtered := _filtered l |}.

Definition set_registered (b : bool) (l : Listener) : Listener :=
  {| transactionId := transactionId l; listenerName := listenerName l;
     options := options l; eventCallback := eventCallback l;
     eventHub := eventHub l; _registration := _registration l;
     _registered := b; _filtered := _filtered l |}.

Definition set_objects (o : gmap loc Options) (w : World) : World :=
  {| objects := o; hubs := hubs w; manager := manager w; calls := calls w |}.

Definition set_hubs (hs : Hubs) (w : World) : World :=
  {| objects := objects w; hubs := hs; manager := manager w; calls := calls w |}.

Definition add_call (c : Call) (w : World) : World :=
  {| objects := objects w; hubs := hubs w; manager := manager w;
     calls := calls w ++ [c] |}.

(** The object a reference denotes. *)
Definition object_at (w : World) (l : loc) : Options := objects w !!! l.
Definition hub_at (w : World) (h : hubref) : EventHub := hubs w !!! h.

Definition set_hub_registrations (t : gmap string Registration) (e : EventHub) : EventHub :=
  {| _peer := _peer e; _transactionRegistrations := t; _connect := _connect e |}.

Definition set_hub_connect (c : option bool) (e : EventHub) : EventHub :=
  {| _peer := _peer e; _transactionRegistrations := _transactionRegistrations e;
     _connect := c |}.

(** ** A monad for methods of the listener *)

(** A method runs on the listener ([this]) and the world, and returns,
    throws, or, for the recursion of [register], runs out of fuel. *)
Inductive outcome (A : Type) : Type :=
| Returned (a : A)
| Threw (e : jsval)
| OutOfFuel.
Arguments Returned {A} a.
Arguments Threw {A} e.
Arguments OutOfFuel {A}.

Definition St : Type := Listener * World.
Definition M (A : Type) : Type := St -> outcome A * St.

Definition ret {A} (a : A) : M A := fun s => (Returned a, s).

Definition bind {A B} (m : M A) (k : A -> M B) : M B :=
  fun s =>
    match m s with
    | (Returned a, s') => k a s'
    | (Threw e, s') => (Threw e, s')
    | (OutOfFuel, s') => (OutOfFuel, s')
    end.

Definition throw {A} (e : jsval) : M A := fun s => (Threw e, s).
Definition out_of_fuel {A} : M A := fun s => (OutOfFuel, s).

(** [try { m } catch (err) { handler err }] *)
Definition try_catch {A} (m : M A) (handler : jsval -> M A) : M A :=
  fun s =>
    match m s with
    | (Threw e, s') => handler e s'
    | r => r
    end.

Definition this : M Listener := fun s => (Returned (fst s), s).
Definition world : M World := fun s => (Returned (snd s), s).
Definition update_this (f : Listener -> Listener) : M unit :=
  fun s => (Returned tt, (f (fst s), snd s)).
Definition update_world (f : World -> World) : M unit :=
  fun s => (Returned tt, (fst s, f (snd s))).
Definition record (c : Call) : M unit := update_world (add_call c).

Notation "'do' x <- m ; k" := (bind m (fun x => k))
  (at level 10, x name, m at level 100, k at level 200).
Notation "m ;; k" := (bind m (fun _ => k))
  (at level 100, k at level 200, right associativity).

(** ** Collaborators *)

(** [this.options.k] *)
Definition option_of (k : string) : M jsval :=
  do l <- this; do w <- world; ret (prop (object_at w (options l)) k).

(** [this.options.k = v]: a write into the object the caller supplied. *)
Definition assign_option (k : string) (v : jsval) : M unit :=
  do l <- this;
  update_world (fun w =>
    set_objects (<[options l := <[k := v]> (object_at w (options l))]> (objects w)) w).

(** ToBoolean of a reference that may be null. *)
Definition truthy_ref {A} (r : option A) : bool :=
  match r with Some _ => true | None => false end.

(** [this.eventHub.<member>]: a member access on null throws. *)
Definition bound_hub (member : string) : M hubref :=
  do l <- this;
  match eventHub l with
  | Some h => ret h
  | None => throw (VTypeError ("Cannot read property '" +:+ member +:+ "' of null"))
  end.

(** Modelled from the spec: the base class AbstractEventListener
    (abstracteventlistener.js is missing here).  Its [register] does
    bookkeeping and does not touch the hub. *)
Definition super_register : M unit :=
  do l <- this; record (BaseRegister (listenerName l)).

(** Modelled from the spec: base bookkeeping of [unregister] in
    AbstractEventListener; the lifecycle flag flips back to false. *)
Definition super_unregister : M unit :=
  do l <- this;
  record (BaseUnregister (listenerName l));;
  update_this (set_registered false).

(** Modelled from the spec: [isregistered()] of AbstractEventListener
    reads the lifecycle flag. *)
Definition isregistered : M bool :=
  do l <- this; ret (_registered l).

(** Modelled from the spec: [registerTxEvent(transactionId, onEvent,
    onError, options) -> registrationId] of the event hub: it creates the
    registration record in the hub's table and returns the id under
    which the record is kept. *)
Definition registerTxEvent (h : hubref) (txid : string) (handlers : string)
    (opts : Options) : M string :=
  record (RegisterTxEvent h txid opts);;
  update_world (fun w =>
    let e := hub_at w h in
    let r := {| reg_handlers := handlers; reg_options := opts |} in
    set_hubs (<[h := set_hub_registrations
                       (<[txid := r]> (_transactionRegistrations e)) e]> (hubs w)) w);;
  ret txid.

(** Modelled from the spec: [unregisterTxEvent(transactionId)] of the
    event hub removes the watch for this id; removing a watch that is
    not there does nothing. *)
Definition unregisterTxEvent (h : hubref) (txid : string) : M unit :=
  record (UnregisterTxEvent h txid);;
  update_world (fun w =>
    let e := hub_at w h in
    set_hubs (<[h := set_hub_registrations
                       (delete txid (_transactionRegistrations e)) e]> (hubs w)) w).

(** Modelled from the spec: [connect(fullBlockData)] of the event hub
    opens or confirms the connection. *)
Definition connect (h : hubref) (fullBlock : bool) : M unit :=
  record (Connect h fullBlock);;
  update_world (fun w =>
    set_hubs (<[h := set_hub_connect (Some fullBlock) (hub_at w h)]> (hubs w)) w).

(** Modelled from the spec: [getPeerAddr()] of the event hub, for
    diagnostic reporting. *)
Definition getPeerAddr (h : hubref) : M string :=
  record (GetPeerAddr h);;
  do w <- world; ret (_peer (hub_at w h)).

(** A call of a manager method: the call is recorded, and the manager's
    answer replaces the arena. *)
Definition ask_manager (c : Call) (f : EventHubManager -> Hubs -> hubref * Hubs) : M hubref :=
  record c;;
  do w <- world;
  let '(h, hs) := f (manager w) (hubs w) in
  update_world (set_hubs hs);;
  ret h.

Definition manager_getEventHub (p : peer) (forceNew : bool) : M hubref :=
  ask_manager (GetEventHub p forceNew) (fun m => getEventHub m p forceNew).

Definition manager_getFixedEventHub (p : peer) : M hubref :=
  ask_manager (GetFixedEventHub p) (fun m => getFixedEventHub m p).

Definition manager_getReplayEventHub : M hubref :=
  ask_manager GetReplayEventHub getReplayEventHub.

(** [this.eventCallback(...args)] *)
Definition call_eventCallback (args : list jsval) : M unit :=
  record (EventCallback args);;
  do l <- this;
  match eventCallback l args with
  | CbReturns => ret tt
  | CbThrows e => throw e
  end.

Definition logger_debug (e : LogEntry) : M unit := record (LoggerDebug e).

(** ** class CommitEventListener *)

(** constructor(network, transactionId, eventCallback, options), lines
    28-32; [random] is the text of [Math.random()].  The other fields are
    those the base constructor leaves behind. *)
Definition new_CommitEventListener (random : string) (transactionId : string)
    (eventCallback : list jsval -> CallbackOutcome) (options : loc)
    (filtered : jsval) : Listener :=
  {| transactionId := transactionId;
     listenerName := transactionId +:+ random;
     options := options;
     eventCallback := eventCallback;
     eventHub := None;
     _registration := None;
     _registered := false;
     _filtered := filtered |}.

(** _isAlreadyRegistered(eventHub), lines 103-112.  A registration record
    is an object, so the table entry is truthy exactly when it is there. *)
Definition _isAlreadyRegistered (eventHub : option hubref) : M bool :=
  match eventHub with
  | None => throw (VError "Event hub not given")
  | Some h =>
      do w <- world;
      let registrations := _transactionRegistrations (hub_at w h) in
      do l <- this;
      match registrations !! transactionId l with
      | Some _ => ret true
      | None => ret false
      end
  end.

(** unregister(), lines 59-64. *)
Definition unregister : M unit :=
  super_unregister;;
  do l <- this;
  match eventHub l with
  | Some h => unregisterTxEvent h (transactionId l)
  | None => ret tt
  end.

(** _registerWithNewEventHub(), lines 86-101; [register] stands for the
    call [this.register()] of line 100. *)
Definition _registerWithNewEventHub_then (register : M unit) : M unit :=
  (do r <- isregistered; if r then unregister else ret tt);;
  do fixedEventHub <- option_of "fixedEventHub";
  do l <- this;
  if truthy fixedEventHub && negb (truthy_ref (eventHub l)) then
    throw (VError ("Cannot use a fixed event hub without setting an event hub "
                   +:+ listenerName l))
  else
    (if negb (truthy fixedEventHub) then
       do h <- manager_getReplayEventHub;
       update_this (set_eventHub (Some h))
     else
       do h0 <- bound_hub "_peer";
       do w <- world;
       do h <- manager_getFixedEventHub (_peer (hub_at w h0));
       update_this (set_eventHub (Some h)));;
    assign_option "disconnect" (VBool true);;
    register.

(** register(), lines 34-57. *)
Fixpoint register (fuel : nat) : M unit :=
  match fuel with
  | O => out_of_fuel
  | S fuel' =>
      super_register;;
      do l <- this;
      match eventHub l with
      | None =>
          logger_debug LogNoEventHub;;
          _registerWithNewEventHub_then (register fuel')
      | Some h0 =>
          (do dup <- _isAlreadyRegistered (Some h0);
           if dup then
             logger_debug LogAlreadyRegistered;;
             do fixedEventHub <- option_of "fixedEventHub";
             do w <- world;
             if negb (truthy fixedEventHub) then
               do h <- manager_getEventHub (_peer (hub_at w h0)) true;
               update_this (set_eventHub (Some h))
             else
               do h <- manager_getFixedEventHub (_peer (hub_at w h0));
               update_this (set_eventHub (Some h))
           else ret tt);;
          do h <- bound_hub "registerTxEvent";
          do l <- this;
          do w <- world;
          do txid <- registerTxEvent h (transactionId l) (listenerName l)
                       (Object_assign {[ "unregister" := VBool true ]}
                                      (object_at w (options l)));
          do w <- world;
          update_this (set_registration
                         (_transactionRegistrations (hub_at w h) !! txid));;
          do l <- this;
          connect h (negb (truthy (_filtered l)));;
          update_this (set_registered true)
      end
  end.

Definition _registerWithNewEventHub (fuel : nat) : M unit :=
  _registerWithNewEventHub_then (register fuel).

(** _onEvent(txid, status, blockNumber), lines 66-78. *)
Definition _onEvent (txid status blockNumber : jsval) : M unit :=
  logger_debug (LogOnEvent txid);;
  let blockNumber := VNum (Number blockNumber) in
  try_catch
    (call_eventCallback [VNull; txid; status; blockNumber])
    (fun err => logger_debug (LogOnEventCallbackError err));;
  do l <- this;
  match _registration l with
  | None => throw (VTypeError "Cannot read property 'unregister' of undefined")
  | Some r => if truthy (reg_unregister r) then unregister else ret tt
  end.

(** _onError(error), lines 80-83.  The arguments of the log call are
    evaluated first, [this.eventHub.getPeerAddr()] among them. *)
Definition _onError (error : jsval) : M unit :=
  do h <- bound_hub "getPeerAddr";
  do addr <- getPeerAddr h;
  logger_debug (LogOnError addr error);;
  call_eventCallback [error].

(** ** Summaries used in the statements *)

(** Lines 40-47 as a function of the state at entry: the hub on which the
    watch is going to be installed, the arena the manager leaves behind,
    and the calls made on the way. *)
Definition resolve_conflict (l : Listener) (w : World) (h0 : hubref)
  : hubref * Hubs * list Call :=
  let p := _peer (hub_at w h0) in
  match _transactionRegistrations (hub_at w h0) !! transactionId l with
  | None => (h0, hubs w, [])
  | Some _ =>
      if truthy (prop (object_at w (options l)) "fixedEventHub") then
        let '(h, hs) := getFixedEventHub (manager w) p (hubs w) in
        (h, hs, [LoggerDebug LogAlreadyRegistered; GetFixedEventHub p])
      else
        let '(h, hs) := getEventHub (manager w) p true (hubs w) in
        (h, hs, [LoggerDebug LogAlreadyRegistered; GetEventHub p true])
  end.

(** The options handed to [registerTxEvent] on line 52. *)
Definition merged_options (w : World) (l : Listener) : Options :=
  Object_assign {[ "unregister" := VBool true ]} (object_at w (options l)).

(** The calls a run has added to the trace. *)
Definition new_calls (before after : World) : list Call :=
  drop (length (calls before)) (calls after).

(** The message of line 91. *)
Definition fixed_hub_error (l : Listener) : jsval :=
  VError ("Cannot use a fixed event hub without setting an event hub "
          +:+ listenerName l).

(** What lines 87-89 add to the trace. *)
Definition cleanup_calls (l : Listener) : list Call :=
  if _registered l then
    BaseUnregister (listenerName l) ::
    match eventHub l with
    | Some h => [UnregisterTxEvent h (transactionId l)]
    | None => []
    end
  else [].

(** What lines 87-89 leave of the arena. *)
Definition cleanup_hubs (l : Listener) (w : World) : Hubs :=
  match _registered l, eventHub l with
  | true, Some h =>
      <[h := set_hub_registrations
               (delete (transactionId l) (_transactionRegistrations (hub_at w h)))
               (hub_at w h)]> (hubs w)
  | _, _ => hubs w
  end.

(** The state in which line 100 calls [register] again, once the manager
    has answered with [h] and left the arena [hs]. *)
Definition reentry (l : Listener) (w : World) (ask : Call) (h : hubref) (hs : Hubs) : St :=
  (set_eventHub (Some h) (set_registered false l),
   {| objects := <[options l := <["disconnect" := VBool true]> (object_at w (options l))]>
                   (objects w);
      hubs := hs;
      manager := manager w;
      calls := calls w ++ cleanup_calls l ++ [ask] |}).

(** Calls that install a watch, on any hub. *)
Definition is_registerTxEvent (c : Call) : bool :=
  match c with RegisterTxEvent _ _ _ => true | _ => false end.

(** ** A manager and states to run the code on *)

Definition new_hub (p : peer) : EventHub :=
  {| _peer := p; _transactionRegistrations := ∅; _connect := None |}.

Definition fresh_handle (hs : Hubs) : hubref :=
  S (map_fold (fun k _ acc => Nat.max k acc) 0 hs).

Definition mint (p : peer) (hs : Hubs) : hubref * Hubs :=
  let h := fresh_handle hs in (h, <[h := new_hub p]> hs).

(** A manager that opens a new hub for every request. *)
Definition mintingManager (replayPeer : peer) : EventHubManager :=
  {| getEventHub := fun p _ => mint p;
     getFixedEventHub := mint;
     getReplayEventHub := mint replayPeer |}.



Definition quiet_callback : list jsval -> CallbackOutcome := fun _ => CbReturns.
Definition failing_callback : list jsval -> CallbackOutcome :=
  fun _ => CbThrows (VError "callback failed").

(** One options object, at reference 0, and no hub yet. *)
Definition world_with (o : Options) : World :=
  {| objects := {[ 0 := o ]}; hubs := ∅;
     manager := mintingManager "peer0.org1"; calls := [] |}.

(** The same, with a hub 7 of peer0 that already watches [tx1] for
    another listener. *)
Definition world_watching (o : Options) : World :=
  {| objects := {[ 0 := o ]};
     hubs := {[ 7 :=
                {| _peer := "peer0.org1";
                   _transactionRegistrations :=
                     {[ "tx1" := {| reg_handlers := "tx10.11";
                                    reg_options := {[ "unregister" := VBool true ]} |} ]};
                   _connect := Some false |} ]};
     manager := mintingManager "peer0.org1"; calls := [] |}.

(** The same, with a hub 7 of peer0 that watches nothing yet. *)
Definition world_idle (o : Options) : World :=
  {| objects := {[ 0 := o ]};
     hubs := {[ 7 := new_hub "peer0.org1" ]};
     manager := mintingManager "peer0.org1"; calls := [] |}.

Definition listener_tx1 (cb : list jsval -> CallbackOutcome) : Listener :=
  new_CommitEventListener "0.42" "tx1" cb 0 (VBool true).

Definition listener_tx2 (cb : list jsval -> CallbackOutcome) : Listener :=
  new_CommitEventListener "0.43" "tx2" cb 0 (VBool true).

(** The state in which [register] leaves the listener for [tx1] when it
    starts with no hub and no options: bound to hub 1, watch installed. *)
Definition registered_tx1 (cb : list jsval -> CallbackOutcome) : St :=
  Eval vm_compute in (register 2 (listener_tx1 cb, world_with ∅)).2.

(** The hub hands a run of error events to the listener, one after the
    other; a handler that throws ends the run. *)
Fixpoint deliver_errors (errors : list jsval) : M unit :=
  match errors with
  | [] => ret tt
  | error :: rest => _onError error;; deliver_errors rest
  end.

(** Calls of the base class's [register]: one for every entry into
    [register]. *)
Definition is_baseRegister (c : Call) : bool :=
  match c with BaseRegister _ => true | _ => false end.

(** The arena after [unregisterTxEvent] for this listener's id on hub [h]. *)
Definition without_watch (l : Listener) (w : World) (h : hubref) : Hubs :=
  <[h := set_hub_registrations
           (delete (transactionId l) (_transactionRegistrations (hub_at w h)))
           (hub_at w h)]> (hubs w).

(** ** Running the code *)

Create HintDb js_exec discriminated.
#[local] Hint Unfold bind ret throw out_of_fuel try_catch this world
  update_this update_world record option_of assign_option bound_hub
  super_register super_unregister isregistered registerTxEvent
  unregisterTxEvent connect getPeerAddr ask_manager manager_getEventHub
  manager_getFixedEventHub manager_getReplayEventHub call_eventCallback
  logger_debug _isAlreadyRegistered unregister _registerWithNewEventHub_then
  _registerWithNewEventHub _onEvent _onError
  set_eventHub set_registration set_registered set_objects set_hubs add_call
  object_at hub_at set_hub_registrations set_hub_connect
  merged_options new_calls fixed_hub_error : js_exec.

Ltac exec_step :=
  autounfold with js_exec;
  cbn [fst snd register
       transactionId listenerName options eventCallback eventHub _registration
       _registered _filtered objects hubs manager calls
       _peer _transactionRegistrations _connect negb andb truthy_ref].
Ltac exec := repeat progress exec_step.

(** Open the listener and the world into their fields. *)
Ltac open_state l w := destruct l, w; cbn [eventHub _registration _registered] in *; subst.

(** After the watch is installed the hub is read back twice (lines 54
    and 55); fold the reads and the two writes into one. *)
Ltac finish_install :=
  rewrite ?lookup_total_insert_eq;
  cbn [_peer _transactionRegistrations _connect];
  rewrite ?insert_insert_eq, ?lookup_insert_eq, <- ?app_assoc.

(** Read the calls a run has added off its final trace. *)
Ltac read_trace :=
  unfold new_calls; cbn [calls snd];
  rewrite <- ?app_assoc; rewrite ?drop_app_length.

Lemma code_points_numeral d :
  code_points (NilEmpty.string_of_uint d) = uint_codes d.
Proof.
  unfold code_points. induction d; cbn [NilEmpty.string_of_uint list_ascii_of_string map uint_codes];
    [done|..]; (cbn -[utf8_decode]; cbn [utf8_decode]; by rewrite IHd).
Qed.

Lemma span_digits_numeral d : span_digits (uint_codes d) = (d, []).
Proof. induction d; [done|..]; cbn [uint_codes span_digits]; by rewrite IHd. Qed.

Lemma numeral_has_no_space d :
  Forall (fun c => is_StrWhiteSpaceChar c = false) (uint_codes d).
Proof. induction d; cbn [uint_codes]; by constructor. Qed.

Lemma drop_space_id l :
  Forall (fun c => is_StrWhiteSpaceChar c = false) l -> drop_space l = l.
Proof. intros [|c r Hc _]; [done|]. cbn [drop_space]. by rewrite Hc. Qed.

Lemma trim_space_numeral d : trim_space (uint_codes d) = uint_codes d.
Proof.
  unfold trim_space. pose proof (numeral_has_no_space d) as H.
  rewrite (drop_space_id _ H), drop_space_id by (by apply Forall_rev).
  apply rev_involutive.
Qed.

Lemma nearest_double_of_integer (n : N) :
  nearest_double false n 0 =
  let z := Z.of_N n in
  if (z <=? 9007199254740992)%Z then Int z
  else jsnum_of_double (binary_round 53 1024 false (Z.to_pos z) 0).
Proof.
  destruct n as [|p]; [done|]. cbv zeta. unfold nearest_double.
  replace (309 <=? 0)%Z with false by done.
  assert (Hsize : (0 + Z.of_N (N.size (N.pos p)) <=? -324)%Z = false).
  { apply Z.leb_gt. pose proof (N2Z.is_nonneg (N.size (N.pos p))). lia. }
  rewrite Hsize. replace (0 <=? 0)%Z with true by done.
  cbv zeta. rewrite Z.pow_0_r, Z.mul_1_r. done.
Qed.

Lemma StringToNumber_numeral d :
  d <> Decimal.Nil ->
  StringToNumber (NilEmpty.string_of_uint d) =
  let z := Z.of_N (N.of_uint d) in
  if (z <=? 9007199254740992)%Z then Int z
  else jsnum_of_double (binary_round 53 1024 false (Z.to_pos z) 0).
Proof.
  intros Hd. unfold StringToNumber.
  rewrite code_points_numeral, trim_space_numeral.
  assert (Hdec : StrUnsignedDecimalLiteral false (uint_codes d)
                 = nearest_double false (N.of_uint d) 0).
  { unfold StrUnsignedDecimalLiteral. rewrite span_digits_numeral.
    destruct d; [done|..]; cbn [is_nil andb Decimal.nb_digits];
      rewrite N.mul_1_r, N.add_0_r; reflexivity. }
  rewrite <- nearest_double_of_integer, <- Hdec.
  destruct d as [|d|d|d|d|d|d|d|d|d|d]; [done|..]; try reflexivity.
  destruct d; reflexivity.
Qed.

(** The forms of numeric literal [Number] reads, on examples. *)
Lemma StringToNumber_reads_literals :
  map StringToNumber
    ["42"; ""; " 42 "; "-1"; "+7"; "0x10"; "0o17"; "0b101"; "12.5"; "1e3"; ".5"; "5.";
     "007"; "-0"; "Infinity"; "-Infinity"; "1e400"; "1e-400"; "5e-324"; "0.1"]
  = [Int 42; Int 0; Int 42; Int (-1); Int 7; Int 16; Int 15; Int 5; Frac 25 (-1);
     Int 1000; Frac 1 (-1); Int 5; Int 7; NegZero; Infinity false; Infinity true;
     Infinity false; Int 0; Frac 1 (-1074); Frac 3602879701896397 (-55)] /\
  map StringToNumber
    ["abc"; "."; "1e"; "0x"; "0x1g"; "+0x10"; "1 2"; "1_000"; "10n"; "--1"; "infinity"]
  = [NaN; NaN; NaN; NaN; NaN; NaN; NaN; NaN; NaN; NaN; NaN] /\
  map StringToNumber
    ["9007199254740992"; "9007199254740993"; "9007199254740995"; "18446744073709551615";
     "0x20000000000001"; "1e23"; "1.7976931348623158e308"; "1.7976931348623159e308"]
  = [Int 9007199254740992; Int 9007199254740992; Int 9007199254740996;
     Int 18446744073709551616; Int 9007199254740992; Int 99999999999999991611392;
     Int 179769313486231570814527423731704356798070567525844996598917476803157260780028538760589558632766878171540458953514382464234321326889464182768467546703537516986049910576551282076245490090389328944075868508455133942304583236903222948165808559332123348274797826204144723168738177180919299881250404026184124858368;
     Infinity false].
Proof. vm_compute. repeat split. Qed.

Lemma new_calls_app w w' cs : calls w' = calls w ++ cs -> new_calls w w' = cs.
Proof. unfold new_calls. intros ->. apply drop_app_length. Qed.

(** [Object.assign] gives the source precedence, key by key. *)
Lemma Object_assign_source (target source : Options) k v :
  source !! k = Some v -> Object_assign target source !! k = Some v.
Proof. intros H. unfold Object_assign. by apply lookup_union_Some_l. Qed.

Lemma Object_assign_target (target source : Options) k :
  source !! k = None -> Object_assign target source !! k = target !! k.
Proof. intros H. unfold Object_assign. by rewrite lookup_union_r. Qed.

(** The main path of [register], lines 40-56, with a hub bound. *)
Lemma register_bound n l w h0 :
  eventHub l = Some h0 ->
  let '(h, hs, pre) := resolve_conflict l w h0 in
  let opts := merged_options w l in
  let r := {| reg_handlers := listenerName l; reg_options := opts |} in
  let full := negb (truthy (_filtered l)) in
  register (S n) (l, w) =
  (Returned tt,
   (set_registered true (set_registration (Some r) (set_eventHub (Some h) l)),
    {| objects := objects w;
       hubs := <[h := {| _peer := _peer (hs !!! h);
                         _transactionRegistrations :=
                           <[transactionId l := r]> (_transactionRegistrations (hs !!! h));
                         _connect := Some full |}]> hs;
       manager := manager w;
       calls := calls w ++ [BaseRegister (listenerName l)] ++ pre ++
                [RegisterTxEvent h (transactionId l) opts; Connect h full] |})).
Proof.
  intros Hh. open_state l w. unfold resolve_conflict. exec.
  destruct (_transactionRegistrations (_ !!! h0) !! _) eqn:E; exec.
  - destruct (truthy _) eqn:F; exec.
    + destruct (getFixedEventHub _ _ _) as [h hs] eqn:G. exec.
      by finish_install.
    + destruct (getEventHub _ _ _ _) as [h hs] eqn:G. exec.
      by finish_install.
  - by finish_install.
Qed.

(** With no hub bound, [register] logs and enters the fallback (lines
    36-39). *)
Lemma register_unbound n l w :
  eventHub l = None ->
  register (S n) (l, w) =
  _registerWithNewEventHub n
    (l, add_call (LoggerDebug LogNoEventHub)
          (add_call (BaseRegister (listenerName l)) w)).
Proof. intros Hh. cbn [register]. unfold bind at 1. exec. by rewrite Hh. Qed.

(** The fallback entered with no hub bound (lines 87-100). *)
Lemma fallback_unbound n l w :
  eventHub l = None ->
  _registerWithNewEventHub n (l, w) =
  if truthy (prop (object_at w (options l)) "fixedEventHub") then
    (Threw (fixed_hub_error l),
     (set_registered false l,
      {| objects := objects w; hubs := hubs w; manager := manager w;
         calls := calls w ++ cleanup_calls l |}))
  else
    let '(h, hs) := getReplayEventHub (manager w) (hubs w) in
    register n (reentry l w GetReplayEventHub h hs).
Proof.
  intros Hh. open_state l w. unfold reentry, cleanup_calls. exec.
  destruct _registered0; exec.
  - destruct (truthy _) eqn:F; exec; [done|].
    destruct (getReplayEventHub _ _) as [h hs]. exec. by rewrite <- app_assoc.
  - destruct (truthy _) eqn:F; exec; [by rewrite app_nil_r|].
    destruct (getReplayEventHub _ _) as [h hs]. by exec.
Qed.

(** The fallback entered with a hub still bound (lines 87-100). *)
Lemma fallback_bound n l w h0 :
  eventHub l = Some h0 ->
  let hs1 := cleanup_hubs l w in
  let p := _peer (hub_at w h0) in
  _registerWithNewEventHub n (l, w) =
  if truthy (prop (object_at w (options l)) "fixedEventHub") then
    let '(h, hs) := getFixedEventHub (manager w) p hs1 in
    register n (reentry l w (GetFixedEventHub p) h hs)
  else
    let '(h, hs) := getReplayEventHub (manager w) hs1 in
    register n (reentry l w GetReplayEventHub h hs).
Proof.
  intros Hh. open_state l w. unfold reentry, cleanup_calls, cleanup_hubs. exec.
  destruct _registered0; exec.
  - destruct (truthy _) eqn:F; exec.
    + rewrite lookup_total_insert_eq. cbn [_peer].
      destruct (getFixedEventHub _ _ _) as [h hs]. exec.
      by rewrite <- !app_assoc.
    + destruct (getReplayEventHub _ _) as [h hs]. exec.
      by rewrite <- !app_assoc.
  - destruct (truthy _) eqn:F; exec.
    + destruct (getFixedEventHub _ _ _) as [h hs]. by exec.
    + destruct (getReplayEventHub _ _) as [h hs]. by exec.
Qed.

(** Lines 40-47 install no watch. *)
Lemma resolve_conflict_calls l w h0 :
  List.filter is_registerTxEvent (resolve_conflict l w h0).2 = [].
Proof.
  unfold resolve_conflict.
  destruct (_ !! _); [|done].
  destruct (truthy _).
  - by destruct (getFixedEventHub _ _ _).
  - by destruct (getEventHub _ _ _ _).
Qed.

Lemma in_filter_nil {A} (f : A -> bool) (xs : list A) x :
  List.filter f xs = [] -> In x xs -> f x = false.
Proof.
  intros Hf Hin. destruct (f x) eqn:E; [|done].
  assert (In x (List.filter f xs)) as Hx by (apply filter_In; auto).
  rewrite Hf in Hx. destruct Hx.
Qed.

(** What the main path achieves, for the statements below. *)
Lemma register_bound_facts n l w h0 :
  eventHub l = Some h0 ->
  exists l' w' h rest,
    register (S n) (l, w) = (Returned tt, (l', w')) /\
    eventHub l' = Some h /\ _registered l' = true /\
    options l' = options l /\ transactionId l' = transactionId l /\
    objects w' = objects w /\
    calls w' = calls w ++ BaseRegister (listenerName l) :: rest /\
    (forall h' t o, In (RegisterTxEvent h' t o) rest -> o = merged_options w l) /\
    is_Some (_transactionRegistrations (hub_at w' h) !! transactionId l).
Proof.
  intros Hh. pose proof (register_bound n l w h0 Hh) as Hrun.
  pose proof (resolve_conflict_calls l w h0) as Hpre.
  destruct (resolve_conflict l w h0) as [[h hs] pre]. cbn [snd] in Hpre.
  cbv zeta in Hrun. eexists _, _, h, _. split; [exact Hrun|].
  repeat split; try done.
  - intros h' t o Hin. apply in_app_or in Hin as [Hin|Hin].
    + by apply (in_filter_nil _ _ _ Hpre) in Hin.
    + cbn in Hin. destruct Hin as [Heq|[Heq|[]]]; [|done]. by inversion Heq.
  - unfold hub_at. cbn [hubs]. rewrite lookup_total_insert_eq.
    cbn [_transactionRegistrations]. rewrite lookup_insert_eq. by eexists.
Qed.

(** ** Facts about [register] on every path *)

Lemma cleanup_calls_no_watch l :
  List.filter is_registerTxEvent (cleanup_calls l) = [].
Proof. unfold cleanup_calls. destruct (_registered l); [|done]. by destruct (eventHub l). Qed.

(** Started with a hub bound, [register] leaves the options alone and
    installs the watch with the merged options. *)
Lemma register_from_bound n l w h0 :
  eventHub l = Some h0 ->
  exists out l' w' cs,
    register n (l, w) = (out, (l', w')) /\
    options l' = options l /\ objects w' = objects w /\
    calls w' = calls w ++ cs /\
    (forall h t o, In (RegisterTxEvent h t o) cs -> o = merged_options w l).
Proof.
  intros Hh. destruct n as [|n].
  - exists OutOfFuel, l, w, []. rewrite app_nil_r. repeat split; try done.
    all: by intros h t o [].
  - destruct (register_bound_facts n l w h0 Hh)
      as (l' & w' & h & rest & Hrun & _ & _ & Hopt & _ & Hobj & Hcalls & Hin & _).
    exists (Returned tt), l', w', (BaseRegister (listenerName l) :: rest).
    repeat split; try done.
    all: intros h' t o [Heq|Hr]; [done|]; by eapply Hin.
Qed.

(** When the guard of line 90 lets the fallback pass, it ends in the
    call of [register] from the state [reentry]. *)
Lemma fallback_reenters n l w :
  truthy (prop (object_at w (options l)) "fixedEventHub") = false \/
  is_Some (eventHub l) ->
  exists ask h hs,
    _registerWithNewEventHub n (l, w) = register n (reentry l w ask h hs) /\
    is_registerTxEvent ask = false.
Proof.
  intros Hguard. destruct (eventHub l) as [h0|] eqn:Hh.
  - rewrite (fallback_bound n l w h0 Hh). cbv zeta.
    destruct (truthy _).
    + destruct (getFixedEventHub _ _ _) as [h hs]. by eexists _, h, hs.
    + destruct (getReplayEventHub _ _) as [h hs]. by eexists _, h, hs.
  - destruct Hguard as [Hf|[? [=]]].
    rewrite (fallback_unbound n l w Hh), Hf.
    destruct (getReplayEventHub _ _) as [h hs]. by eexists _, h, hs.
Qed.

Lemma merged_options_eq w w' l l' :
  options l' = options l -> objects w' = objects w ->
  merged_options w' l' = merged_options w l.
Proof. unfold merged_options, object_at. by intros -> ->. Qed.

(** On every path: the options object is the caller's, untouched when a
    hub was bound, with [disconnect] overwritten when the fallback went
    on to install a watch; and every watch installed carries the merge of
    line 52 over the object as [register] leaves it. *)
Lemma register_summary n l w :
  exists out l' w' cs,
    register n (l, w) = (out, (l', w')) /\
    options l' = options l /\
    calls w' = calls w ++ cs /\
    (objects w' = objects w /\
     (eventHub l = None -> List.filter is_registerTxEvent cs = []) \/
     eventHub l = None /\
     objects w' = <[options l := <["disconnect" := VBool true]> (object_at w (options l))]>
                    (objects w)) /\
    (forall h t o, In (RegisterTxEvent h t o) cs -> o = merged_options w' l).
Proof.
  destruct (eventHub l) as [h0|] eqn:Hh.
  - destruct (register_from_bound n l w h0 Hh)
      as (out & l' & w' & cs & Hrun & Hopt & Hobj & Hcalls & Hin).
    exists out, l', w', cs. split; [done|]. split; [done|]. split; [done|].
    split; [by left|].
    intros h t o Hi. rewrite (Hin h t o Hi). symmetry. by apply merged_options_eq.
  - destruct n as [|n].
    { exists OutOfFuel, l, w, []. rewrite app_nil_r.
      split; [done|]. split; [done|]. split; [done|]. split; [by left|].
      by intros h t o []. }
    rewrite (register_unbound n l w Hh), (fallback_unbound n _ _ Hh).
    replace (object_at _ (options l)) with (object_at w (options l)) by done.
    destruct (truthy _).
    + eexists _, _, _, ([BaseRegister (listenerName l); LoggerDebug LogNoEventHub]
                         ++ cleanup_calls l).
      split; [reflexivity|]. split; [done|]. cbn [calls add_call objects].
      split; [by rewrite <- !app_assoc|].
      pose proof (cleanup_calls_no_watch l) as Hclean.
      split; [left; split; [done|]; intros _; by cbn|].
      intros h t o [Heq|[Heq|Hi]]; [done|done|].
      by apply (in_filter_nil _ _ _ Hclean) in Hi.
    + cbn [manager hubs add_call].
      destruct (getReplayEventHub _ _) as [hr hs].
      set (s1 := reentry _ _ _ hr hs).
      destruct (register_from_bound n s1.1 s1.2 hr eq_refl)
        as (out & l' & w' & cs & Hrun & Hopt & Hobj & Hcalls & Hin).
      exists out, l', w',
        ([BaseRegister (listenerName l); LoggerDebug LogNoEventHub]
           ++ cleanup_calls l ++ [GetReplayEventHub] ++ cs).
      split; [by destruct s1|]. split; [done|].
      split; [rewrite Hcalls; cbn; by rewrite <- !app_assoc|].
      split; [by right|].
      intros h t o [Heq|[Heq|Hi]]; [done|done|].
      rewrite app_nil_l in Hi. apply in_app_or in Hi as [Hi|Hi];
        [|apply in_app_or in Hi as [[Heq|[]]|Hi]; [done|]].
      * by apply (in_filter_nil _ _ _ (cleanup_calls_no_watch l)) in Hi.
      * rewrite (Hin h t o Hi). symmetry. by apply merged_options_eq.
Qed.

(** A call of [register] that returns leaves the listener ready for
    events: a hub is bound, the registration is captured and is the one
    in the hub's table, and the flag is set. *)
Lemma register_bound_ready n l w h0 :
  eventHub l = Some h0 ->
  exists l' w' h r,
    register (S n) (l, w) = (Returned tt, (l', w')) /\
    eventHub l' = Some h /\ _registration l' = Some r /\ _registered l' = true /\
    _transactionRegistrations (hub_at w' h) !! transactionId l' = Some r /\
    reg_options r = merged_options w l.
Proof.
  intros Hh. pose proof (register_bound n l w h0 Hh) as Hrun.
  destruct (resolve_conflict l w h0) as [[h hs] pre]. cbv zeta in Hrun.
  eexists _, _, h, _. split; [exact Hrun|]. repeat split.
  unfold hub_at. cbn [hubs transactionId set_registered set_registration set_eventHub].
  rewrite lookup_total_insert_eq. cbn [_transactionRegistrations].
  by rewrite lookup_insert_eq.
Qed.

Lemma register_returns_ready n l w l' w' :
  register n (l, w) = (Returned tt, (l', w')) ->
  exists h r,
    eventHub l' = Some h /\ _registration l' = Some r /\ _registered l' = true /\
    _transactionRegistrations (hub_at w' h) !! transactionId l' = Some r.
Proof.
  assert (Hb : forall m s h0 l' w', eventHub s.1 = Some h0 ->
             register m s = (Returned tt, (l', w')) ->
             exists h r,
               eventHub l' = Some h /\ _registration l' = Some r /\
               _registered l' = true /\
               _transactionRegistrations (hub_at w' h) !! transactionId l' = Some r).
  { intros [|m] [l0 w0] h0 l1 w1 Hh Hrun; [done|].
    destruct (register_bound_ready m l0 w0 h0 Hh)
      as (l2 & w2 & h & r & Hrun2 & ? & ? & ? & ? & _).
    rewrite Hrun2 in Hrun. injection Hrun as <- <-. by exists h, r. }
  intros Hrun. destruct (eventHub l) as [h0|] eqn:Hh; [by apply (Hb n (l, w) h0)|].
  destruct n as [|n]; [done|].
  rewrite (register_unbound n l w Hh), (fallback_unbound n _ _ Hh) in Hrun.
  destruct (truthy _); [done|]. cbn [manager hubs add_call] in Hrun.
  destruct (getReplayEventHub _ _) as [hr hs].
  eapply Hb; [|exact Hrun]. reflexivity.
Qed.

(** Two units of fuel are enough: the fallback calls [register] once,
    with a hub bound. *)
Lemma register_fuel_enough n l w :
  register (S (S n)) (l, w) = register 2 (l, w).
Proof.
  assert (Hb : forall m s h0, eventHub s.1 = Some h0 -> register (S m) s = register 1 s).
  { intros m [l0 w0] h0 Hh.
    pose proof (register_bound m l0 w0 h0 Hh) as H1.
    pose proof (register_bound 0 l0 w0 h0 Hh) as H2.
    destruct (resolve_conflict l0 w0 h0) as [[h hs] pre]. cbv zeta in *.
    by rewrite H1, H2. }
  destruct (eventHub l) as [h0|] eqn:Hh.
  - by rewrite (Hb (S n) (l, w) h0), (Hb 1 (l, w) h0).
  - rewrite !(register_unbound _ l w Hh), !(fallback_unbound _ _ _ Hh).
    destruct (truthy _); [done|]. cbn [manager hubs add_call].
    destruct (getReplayEventHub _ _) as [hr hs].
    by rewrite (Hb n (reentry _ _ GetReplayEventHub hr hs) hr eq_refl).
Qed.

Lemma registered_tx1_run cb :
  register 2 (listener_tx1 cb, world_with ∅) = (Returned tt, registered_tx1 cb).
Proof. vm_compute. reflexivity. Qed.

(** ** The claims *)




(** C2.  For a commit event, [_onEvent] calls the caller's callback
    exactly once, with null, the transaction id, the status and
    [Number(blockNumber)], which is a number whether the hub delivered
    the block number as a number or as a string: a number is passed as
    it came, and a decimal numeral is read as the double nearest to its
    value, which is the value itself up to 2^53 and the Standard
    Library's IEEE 754 rounding of it beyond; the other forms of numeric
    literal are read as the language reads them, shown on examples. *)
Theorem onEvent_calls_back_once txid status blockNumber l w :
  let w' := (_onEvent txid status blockNumber (l, w)).2.2 in
  List.filter is_callback (new_calls w w') =
    [EventCallback [VNull; txid; status; VNum (Number blockNumber)]] /\
  typeof (VNum (Number blockNumber)) = "number" /\
  (forall n, blockNumber = VNum n -> Number blockNumber = n) /\
  (forall d, blockNumber = VStr (NilEmpty.string_of_uint d) -> d <> Decimal.Nil ->
     let z := Z.of_N (N.of_uint d) in
     Number blockNumber =
       if (z <=? 9007199254740992)%Z then Int z
       else jsnum_of_double (binary_round 53 1024 false (Z.to_pos z) 0)) /\
  map (fun s => Number (VStr s))
    ["42"; " 42 "; "-1"; "0x10"; "1e3"; "12.5"; "abc";
     "9007199254740993"; "18446744073709551615"] =
    [Int 42; Int 42; Int (-1); Int 16; Int 1000; Frac 25 (-1); NaN;
     Int 9007199254740992; Int 18446744073709551616].
Proof.
  cbv zeta. split; [|split; [done|split; [|split]]].
  - destruct l, w. exec.
    destruct (eventCallback0 _); exec;
      (destruct _registration0 as [r|]; exec;
       [destruct (truthy (reg_unregister r)); exec;
        [destruct eventHub0; exec|]|]);
      by read_trace.
  - by intros n ->.
  - intros d -> Hd. cbn [Number]. by apply StringToNumber_numeral.
  - vm_compute. reflexivity.
Qed.

(** C3.  When the caller's callback throws on a commit event and a
    registration has been captured, [_onEvent] catches the exception,
    logs it and returns normally; if the captured registration's
    [unregister] flag is true the listener then unregisters: the base
    bookkeeping runs, the flag [_registered] is false and the watch for
    its transaction id is gone from the bound hub.  If the flag is not
    true nothing but the log entries is added. *)
Theorem onEvent_isolates_callback_exception txid status blockNumber l w e r :
  eventCallback l [VNull; txid; status; VNum (Number blockNumber)] = CbThrows e ->
  _registration l = Some r ->
  exists l' w',
    _onEvent txid status blockNumber (l, w) = (Returned tt, (l', w')) /\
    if truthy (reg_unregister r) then
      _registered l' = false /\
      new_calls w w' =
        [LoggerDebug (LogOnEvent txid);
         EventCallback [VNull; txid; status; VNum (Number blockNumber)];
         LoggerDebug (LogOnEventCallbackError e);
         BaseUnregister (listenerName l)] ++
        match eventHub l with
        | Some h => [UnregisterTxEvent h (transactionId l)]
        | None => []
        end /\
      (forall h, eventHub l = Some h ->
         _transactionRegistrations (hub_at w' h) !! transactionId l = None)
    else
      l' = l /\ hubs w' = hubs w /\
      new_calls w w' =
        [LoggerDebug (LogOnEvent txid);
         EventCallback [VNull; txid; status; VNum (Number blockNumber)];
         LoggerDebug (LogOnEventCallbackError e)].
Proof.
  intros Hcb Hreg. destruct l, w.
  cbn [eventCallback _registration] in Hcb, Hreg. subst. exec. rewrite Hcb. exec.
  destruct (truthy (reg_unregister r)); exec.
  - destruct eventHub0 as [h|]; exec; eexists _, _; (split; [reflexivity|]);
      (split; [done|]); (split; [by read_trace|]).
    + intros h' [= <-]. cbn [hubs]. rewrite lookup_total_insert_eq.
      cbn [_transactionRegistrations]. apply lookup_delete_eq.
    + by intros h' [=].
  - eexists _, _. split; [reflexivity|]. split; [done|]. split; [done|].
    by read_trace.
Qed.

Lemma onEvent_isolates_callback_exception_witness :
  let s := registered_tx1 failing_callback in
  let args := [VNull; VStr "tx1"; VStr "VALID"; VNum (Int 42)] in
  eventCallback s.1 args = CbThrows (VError "callback failed") /\
  is_Some (_registration s.1) /\
  exists l' w',
    _onEvent (VStr "tx1") (VStr "VALID") (VStr "42") s = (Returned tt, (l', w')) /\
    _registered l' = false /\
    new_calls s.2 w' =
      [LoggerDebug (LogOnEvent (VStr "tx1")); EventCallback args;
       LoggerDebug (LogOnEventCallbackError (VError "callback failed"));
       BaseUnregister "tx10.42"; UnregisterTxEvent 1 "tx1"] /\
    _transactionRegistrations (hub_at w' 1) !! "tx1" = None.
Proof.
  intros s args. split; [reflexivity|]. split; [by eexists|].
  destruct (onEvent_isolates_callback_exception
              (VStr "tx1") (VStr "VALID") (VStr "42") s.1 s.2
              (VError "callback failed") _ eq_refl eq_refl)
    as (l' & w' & Hrun & Hflag & Hcalls & Hgone).
  exists l', w'. split; [exact Hrun|]. split; [exact Hflag|].
  split; [exact Hcalls|]. exact (Hgone 1 eq_refl).
Defined.

(** C4.  With [fixedEventHub] set and no hub bound, [register] throws
    the error of line 91, whose message names the listener; the error is
    the outcome of the call (the rejection of its promise), the callback
    is not called, and neither the manager nor any hub is called or
    changed before the failure. *)
Theorem register_fixed_without_hub_fails n l w :
  eventHub l = None ->
  truthy (prop (object_at w (options l)) "fixedEventHub") = true ->
  exists l' w',
    register (S n) (l, w) =
      (Threw (VError ("Cannot use a fixed event hub without setting an event hub "
                      +:+ listenerName l)), (l', w')) /\
    List.filter is_hub_call (new_calls w w') = [] /\
    List.filter is_callback (new_calls w w') = [] /\
    hubs w' = hubs w /\ objects w' = objects w /\
    eventHub l' = None /\ _registration l' = _registration l.
Proof.
  intros Hh Hfixed. rewrite (register_unbound n l w Hh).
  rewrite fallback_unbound by exact Hh.
  replace (object_at _ (options l)) with (object_at w (options l)) by done.
  rewrite Hfixed. eexists _, _. split; [reflexivity|].
  cbn [hubs objects add_call calls].
  rewrite <- !app_assoc. erewrite new_calls_app by reflexivity.
  unfold cleanup_calls. rewrite Hh.
  by destruct (_registered l).
Qed.

Lemma register_fixed_without_hub_fails_witness :
  let l := listener_tx1 quiet_callback in
  let w := world_with {[ "fixedEventHub" := VBool true ]} in
  eventHub l = None /\
  truthy (prop (object_at w (options l)) "fixedEventHub") = true /\
  exists l' w',
    register 2 (l, w) =
      (Threw (VError "Cannot use a fixed event hub without setting an event hub tx10.42"),
       (l', w')) /\
    List.filter is_hub_call (new_calls w w') = [] /\
    List.filter is_callback (new_calls w w') = [].
Proof.
  intros l w. split; [reflexivity|]. split; [reflexivity|].
  destruct (register_fixed_without_hub_fails 1 l w eq_refl eq_refl)
    as (l' & w' & Hrun & Hhub & Hcb & _).
  exists l', w'. split; [exact Hrun|]. split; [exact Hhub|exact Hcb].
Defined.

(** C5.  On an error event, with the hub bound, [_onError] calls the
    caller's callback with the error as its only argument; it does not
    unregister: the listener is left as it was (flag and captured
    registration included), no unregister call is made, and the hubs'
    registration tables are untouched. *)
Theorem onError_reports_error_and_stays_registered error l w h :
  eventHub l = Some h ->
  exists out w',
    _onError error (l, w) = (out, (l, w')) /\
    new_calls w w' =
      [GetPeerAddr h;
       LoggerDebug (LogOnError (_peer (hub_at w h)) error);
       EventCallback [error]] /\
    hubs w' = hubs w /\ objects w' = objects w.
Proof.
  intros Hh. destruct l, w. cbn [eventHub] in Hh. subst. exec.
  destruct (eventCallback0 _); exec; eexists _, _;
    (split; [reflexivity|]); (split; [by read_trace|done]).
Qed.

Lemma onError_reports_error_and_stays_registered_witness :
  let s := registered_tx1 quiet_callback in
  eventHub s.1 = Some 1 /\
  exists out w',
    _onError (VError "peer gone") s = (out, (s.1, w')) /\
    new_calls s.2 w' =
      [GetPeerAddr 1;
       LoggerDebug (LogOnError "peer0.org1" (VError "peer gone"));
       EventCallback [VError "peer gone"]] /\
    _registered s.1 = true /\
    is_Some (_transactionRegistrations (hub_at w' 1) !! "tx1").
Proof.
  intros s. split; [reflexivity|].
  destruct (onError_reports_error_and_stays_registered
              (VError "peer gone") s.1 s.2 1 eq_refl)
    as (out & w' & Hrun & Hcalls & Hhubs & _).
  exists out, w'. split; [exact Hrun|]. split; [exact Hcalls|].
  split; [reflexivity|]. unfold hub_at. rewrite Hhubs. by eexists.
Defined.

(** C6 fails as stated: the caller set [disconnect: false]; the call goes
    through the fallback and the hub receives [disconnect: true]. *)
Lemma register_overrides_caller_disconnect :
  let l := listener_tx1 quiet_callback in
  let w := world_with {[ "disconnect" := VBool false ]} in
  let opts : Options := {[ "unregister" := VBool true; "disconnect" := VBool true ]} in
  object_at w (options l) !! "disconnect" = Some (VBool false) /\
  In (RegisterTxEvent 1 "tx1" opts) (new_calls w (register 2 (l, w)).2.2) /\
  opts !! "disconnect" <> object_at w (options l) !! "disconnect".
Proof.
  intros l w opts. split; [reflexivity|]. split.
  - vm_compute. do 4 right. by left.
  - vm_compute. discriminate.
Qed.

(** C6, amended.  Whenever [register] calls [registerTxEvent], the
    options it passes are [Object.assign({unregister: true},
    this.options)] over the caller's options object as it stands at the
    call.  That object holds what the caller gave when a hub was bound
    at entry, and what the caller gave with [disconnect] overwritten by
    true when the call went through the fallback.  So [unregister] is
    true when the caller gave none, and every property the caller gave
    is passed with the caller's value (an [unregister] given by the
    caller, false included, wins over the default), [disconnect] on the
    fallback path excepted. *)
Theorem register_merges_caller_options n l w h t opts :
  let w' := (register n (l, w)).2.2 in
  In (RegisterTxEvent h t opts) (new_calls w w') ->
  let given := object_at w (options l) in
  let held := object_at w' (options l) in
  opts = Object_assign {[ "unregister" := VBool true ]} held /\
  held = match eventHub l with
         | Some _ => given
         | None => <["disconnect" := VBool true]> given
         end /\
  (given !! "unregister" = None -> opts !! "unregister" = Some (VBool true)) /\
  (forall k v, given !! k = Some v ->
               k <> "disconnect" \/ is_Some (eventHub l) ->
               opts !! k = Some v) /\
  (forall k, k <> "unregister" -> k <> "disconnect" -> opts !! k = given !! k).
Proof.
  cbv zeta.
  destruct (register_summary n l w)
    as (out & l' & w' & cs & Hrun & Hopt & Hcalls & Hobj & Hin).
  rewrite Hrun. cbn [snd]. rewrite (new_calls_app _ _ _ Hcalls). intros Hi.
  pose proof (Hin h t opts Hi) as ->. unfold merged_options.
  assert (Hheld : object_at w' (options l) =
                  match eventHub l with
                  | Some _ => object_at w (options l)
                  | None => <["disconnect" := VBool true]> (object_at w (options l))
                  end).
  { unfold object_at. destruct Hobj as [[-> Hnone]|[-> ->]].
    - destruct (eventHub l); [done|].
      by apply (in_filter_nil _ _ _ (Hnone eq_refl)) in Hi.
    - by rewrite lookup_total_insert_eq. }
  split; [done|]. split; [done|]. rewrite Hheld.
  assert (Hother : forall k, k <> "disconnect" ->
            match eventHub l with
            | Some _ => object_at w (options l)
            | None => <["disconnect" := VBool true]> (object_at w (options l))
            end !! k = object_at w (options l) !! k).
  { intros k Hk. destruct (eventHub l); [done|]. by apply lookup_insert_ne. }
  split; [|split].
  - intros Hnone. rewrite Object_assign_target by (by rewrite Hother).
    apply lookup_singleton_eq.
  - intros k v Hv [Hk|[h0 Hh]]; apply Object_assign_source.
    + by rewrite Hother.
    + by rewrite Hh.
  - intros k Hu Hd.
    destruct (object_at w (options l) !! k) as [v|] eqn:E.
    + apply Object_assign_source. by rewrite Hother.
    + rewrite Object_assign_target by (by rewrite Hother).
      by apply lookup_singleton_ne.
Qed.

(** The caller set [unregister: false]; the hub receives false. *)
Lemma register_merges_caller_options_witness :
  let l := set_eventHub (Some 7) (listener_tx2 quiet_callback) in
  let w := world_watching {[ "unregister" := VBool false ]} in
  let opts : Options := {[ "unregister" := VBool false ]} in
  In (RegisterTxEvent 7 "tx2" opts) (new_calls w (register 1 (l, w)).2.2) /\
  opts !! "unregister" = Some (VBool false).
Proof.
  intros l w opts.
  assert (Hin : In (RegisterTxEvent 7 "tx2" opts) (new_calls w (register 1 (l, w)).2.2))
    by (vm_compute; auto).
  split; [exact Hin|].
  destruct (register_merges_caller_options 1 l w 7 "tx2" opts Hin)
    as (_ & _ & _ & Hkeys & _).
  apply Hkeys; [reflexivity|by left].
Defined.

(** C7.  With no hub bound and [fixedEventHub] not set, [register] asks
    the manager for a replay hub, binds it, sets the [disconnect] option
    to true and calls [register] again; the call as a whole returns with
    a hub bound, the registered flag true and the watch installed on the
    bound hub. *)
Theorem register_without_hub_acquires_replay_hub n l w :
  eventHub l = None ->
  truthy (prop (object_at w (options l)) "fixedEventHub") = false ->
  exists l1 w1 l' w' h rest,
    (* the fallback re-enters register with the replay hub bound *)
    register (S (S n)) (l, w) = register (S n) (l1, w1) /\
    eventHub l1 = Some (getReplayEventHub (manager w) (hubs w)).1 /\
    prop (object_at w1 (options l1)) "disconnect" = VBool true /\
    new_calls w w1 =
      [BaseRegister (listenerName l); LoggerDebug LogNoEventHub] ++
      (if _registered l then [BaseUnregister (listenerName l)] else []) ++
      [GetReplayEventHub] /\
    (* and the call as a whole completes *)
    register (S (S n)) (l, w) = (Returned tt, (l', w')) /\
    eventHub l' = Some h /\ _registered l' = true /\
    calls w' = calls w1 ++ BaseRegister (listenerName l) :: rest /\
    prop (object_at w' (options l')) "disconnect" = VBool true /\
    is_Some (_transactionRegistrations (hub_at w' h) !! transactionId l).
Proof.
  intros Hh Hfixed. rewrite (register_unbound (S n) l w Hh).
  rewrite fallback_unbound by exact Hh.
  replace (object_at _ (options l)) with (object_at w (options l)) by done.
  rewrite Hfixed. cbn [hubs manager add_call].
  destruct (getReplayEventHub (manager w) (hubs w)) as [hr hs] eqn:G.
  set (s1 := reentry _ _ _ hr hs).
  destruct (register_bound_facts n s1.1 s1.2 hr eq_refl)
    as (l' & w' & h & rest & Hrun & Hl & Hreg & Hopt & Htx & Hobj & Hcalls & _ & Hin).
  exists s1.1, s1.2, l', w', h, rest.
  assert (Hd : prop (object_at s1.2 (options s1.1)) "disconnect" = VBool true).
  { unfold object_at, prop. cbn. by rewrite lookup_total_insert_eq, lookup_insert_eq. }
  split; [by destruct s1|]. split; [done|]. split; [exact Hd|].
  split.
  { apply new_calls_app. cbn. unfold cleanup_calls. rewrite Hh.
    rewrite <- !app_assoc. by destruct (_registered l). }
  split; [by destruct s1|]. split; [done|]. split; [done|]. split; [done|].
  split; [|done].
  unfold object_at in *. by rewrite Hopt, Hobj.
Qed.

Lemma register_without_hub_acquires_replay_hub_witness :
  let l := listener_tx1 quiet_callback in
  let w := world_with ∅ in
  eventHub l = None /\
  truthy (prop (object_at w (options l)) "fixedEventHub") = false /\
  exists l' w' h,
    register 2 (l, w) = (Returned tt, (l', w')) /\
    eventHub l' = Some h /\ _registered l' = true.
Proof.
  intros l w. split; [reflexivity|]. split; [reflexivity|].
  destruct (register_without_hub_acquires_replay_hub 0 l w eq_refl eq_refl)
    as (_ & _ & l' & w' & h & _ & _ & _ & _ & _ & Hrun & Hl & Hreg & _).
  exists l', w', h. split; [exact Hrun|]. split; [exact Hl|exact Hreg].
Defined.

(** C8 fails as stated: with [fixedEventHub] set and the hub reference
    cleared, the fallback throws and asks the manager for nothing. *)
Lemma fixed_fallback_without_hub_throws :
  let l := listener_tx1 quiet_callback in
  let w := world_with {[ "fixedEventHub" := VBool true ]} in
  let r := register 2 (l, w) in
  eventHub l = None /\
  truthy (prop (object_at w (options l)) "fixedEventHub") = true /\
  r.1 = Threw (VError "Cannot use a fixed event hub without setting an event hub tx10.42") /\
  eventHub r.2.1 = None /\
  ~ (exists p, In (GetFixedEventHub p) (calls r.2.2)).
Proof.
  vm_compute. repeat split; try reflexivity.
  intros [p [H|[H|[]]]]; discriminate.
Qed.

(** C8, amended.  With [fixedEventHub] set, the fallback asks the manager
    for the fixed handle only when it is entered with a hub still bound:
    it then asks for the fixed handle of that hub's peer, binds the
    answer, sets [disconnect] and calls [register].  Entered with the
    hub reference cleared it throws the error of line 91 and asks the
    manager for nothing. *)
Theorem fixed_fallback_needs_bound_hub n l w :
  truthy (prop (object_at w (options l)) "fixedEventHub") = true ->
  match eventHub l with
  | None =>
      exists l' w',
        _registerWithNewEventHub n (l, w) = (Threw (fixed_hub_error l), (l', w')) /\
        eventHub l' = None /\
        List.filter is_hub_call (new_calls w w') = []
  | Some h0 =>
      let p := _peer (hub_at w h0) in
      let answer := getFixedEventHub (manager w) p (cleanup_hubs l w) in
      exists l1 w1,
        _registerWithNewEventHub n (l, w) = register n (l1, w1) /\
        eventHub l1 = Some answer.1 /\
        hubs w1 = answer.2 /\
        prop (object_at w1 (options l1)) "disconnect" = VBool true /\
        new_calls w w1 = cleanup_calls l ++ [GetFixedEventHub p]
  end.
Proof.
  intros Hfixed. destruct (eventHub l) as [h0|] eqn:Hh.
  - rewrite (fallback_bound n l w h0 Hh), Hfixed. cbv zeta.
    destruct (getFixedEventHub _ _ _) as [h hs].
    eexists _, _. split; [reflexivity|]. split; [done|]. split; [done|].
    split; [|by apply new_calls_app].
    unfold object_at, prop. cbn. by rewrite lookup_total_insert_eq, lookup_insert_eq.
  - rewrite (fallback_unbound n l w Hh), Hfixed.
    eexists _, _. split; [reflexivity|]. split; [done|].
    erewrite new_calls_app by reflexivity.
    unfold cleanup_calls. rewrite Hh. by destruct (_registered l).
Qed.

(** Entered with hub 7 still bound, the fallback asks for the fixed
    handle of peer0 and goes on. *)
Lemma fixed_fallback_needs_bound_hub_witness :
  let l := set_eventHub (Some 7) (listener_tx1 quiet_callback) in
  let w := world_watching {[ "fixedEventHub" := VBool true ]} in
  truthy (prop (object_at w (options l)) "fixedEventHub") = true /\
  exists l1 w1,
    _registerWithNewEventHub 1 (l, w) = register 1 (l1, w1) /\
    eventHub l1 = Some 8 /\
    new_calls w w1 = [GetFixedEventHub "peer0.org1"].
Proof.
  intros l w. split; [reflexivity|].
  destruct (fixed_fallback_needs_bound_hub 1 l w eq_refl)
    as (l1 & w1 & Hrun & Hl & _ & _ & Hcalls).
  exists l1, w1. split; [exact Hrun|]. split; [exact Hl|exact Hcalls].
Defined.

(** C9.  When the fallback gets past the guard of line 90, it writes
    [disconnect = true] into the listener's options object itself: the
    listener keeps the same object, the object afterwards is the object
    before with [disconnect] overwritten, so every other property and
    every other object is as before, and the write stays: the watch
    installed by this call, and by any later [register] of a listener
    holding this object while the object is as the fallback left it,
    carries [disconnect = true]. *)
Theorem fallback_forces_disconnect_in_place n l w :
  truthy (prop (object_at w (options l)) "fixedEventHub") = false \/
  is_Some (eventHub l) ->
  let s' := (_registerWithNewEventHub n (l, w)).2 in
  options s'.1 = options l /\
  objects s'.2 =
    <[options l := <["disconnect" := VBool true]> (object_at w (options l))]> (objects w) /\
  (forall k, k <> "disconnect" ->
     object_at s'.2 (options l) !! k = object_at w (options l) !! k) /\
  (forall o, o <> options l -> objects s'.2 !! o = objects w !! o) /\
  (forall h t opts, In (RegisterTxEvent h t opts) (new_calls w s'.2) ->
     opts !! "disconnect" = Some (VBool true)) /\
  (forall m l2 w2 h t opts,
     options l2 = options l ->
     object_at w2 (options l) = object_at s'.2 (options l) ->
     In (RegisterTxEvent h t opts) (new_calls w2 (register m (l2, w2)).2.2) ->
     opts !! "disconnect" = Some (VBool true)).
Proof.
  intros Hguard. cbv zeta.
  destruct (fallback_reenters n l w Hguard) as (ask & hr & hs & -> & Hask).
  set (s1 := reentry l w ask hr hs).
  destruct (register_from_bound n s1.1 s1.2 hr eq_refl)
    as (out & l' & w' & cs & Hrun & Hopt & Hobj & Hcalls & Hin).
  replace (register n s1) with (register n (s1.1, s1.2)) by (by destruct s1).
  rewrite Hrun. cbn [fst snd].
  assert (Hd : forall o : Options, (<["disconnect" := VBool true]> o) !! "disconnect"
                                   = Some (VBool true))
    by (intros o; apply lookup_insert_eq).
  split; [done|]. split; [done|]. split; [|split; [|split]].
  - intros k Hk. unfold object_at. rewrite Hobj. cbn [objects s1 reentry snd].
    rewrite lookup_total_insert_eq. by apply lookup_insert_ne.
  - intros o Ho. rewrite Hobj. cbn [objects s1 reentry snd]. by apply lookup_insert_ne.
  - intros h t opts Hi.
    erewrite new_calls_app in Hi
      by (rewrite Hcalls; cbn [calls s1 reentry snd]; by rewrite <- !app_assoc).
    apply in_app_or in Hi as [Hi|Hi];
      [by apply (in_filter_nil _ _ _ (cleanup_calls_no_watch l)) in Hi|].
    destruct Hi as [Heq|Hi]; [by subst ask|].
    rewrite (Hin h t opts Hi). unfold merged_options, object_at.
    cbn [objects options s1 reentry fst snd set_eventHub set_registered].
    rewrite lookup_total_insert_eq. by apply Object_assign_source.
  - intros m l2 w2 h t opts Hl2 Hsame Hi.
    destruct (register_summary m l2 w2)
      as (out2 & l2' & w2' & cs2 & Hrun2 & Hopt2 & Hcalls2 & Hobj2 & Hin2).
    rewrite Hrun2 in Hi. cbn [snd] in Hi.
    rewrite (new_calls_app _ _ _ Hcalls2) in Hi.
    rewrite (Hin2 h t opts Hi). unfold merged_options.
    apply Object_assign_source. unfold object_at in *.
    destruct Hobj2 as [[-> _]|[_ ->]].
    + rewrite Hl2, Hsame, Hobj. cbn [objects s1 reentry snd].
      by rewrite lookup_total_insert_eq.
    + by rewrite lookup_total_insert_eq.
Qed.

(** The caller asked for [disconnect: false]; after the fallback the
    caller's object says true, and so does the watch. *)
Lemma fallback_forces_disconnect_in_place_witness :
  let l := listener_tx1 quiet_callback in
  let w := world_with {[ "disconnect" := VBool false; "filtered" := VBool true ]} in
  let s' := (_registerWithNewEventHub 1 (l, w)).2 in
  (truthy (prop (object_at w (options l)) "fixedEventHub") = false \/
   is_Some (eventHub l)) /\
  objects s'.2 =
    {[ 0 := {[ "disconnect" := VBool true; "filtered" := VBool true ]} ]} /\
  In (RegisterTxEvent 1 "tx1"
        {[ "unregister" := VBool true; "disconnect" := VBool true;
           "filtered" := VBool true ]})
     (new_calls w s'.2).
Proof.
  intros l w s'.
  assert (Hguard : truthy (prop (object_at w (options l)) "fixedEventHub") = false \/
                   is_Some (eventHub l)) by (left; reflexivity).
  split; [exact Hguard|].
  destruct (fallback_forces_disconnect_in_place 1 l w Hguard) as (_ & Hobj & _).
  split.
  - etransitivity; [exact Hobj|]. vm_compute. reflexivity.
  - vm_compute. auto.
Defined.

(** C10.  When the caller's callback throws on an error event, with the
    hub bound, [_onError] throws the same value: nothing catches it and
    no callback-error log entry is written.  [_onEvent], on the same
    listener, returns normally when the callback throws. *)
Theorem onError_propagates_callback_exception error l w h e :
  eventHub l = Some h ->
  eventCallback l [error] = CbThrows e ->
  (exists w',
     _onError error (l, w) = (Threw e, (l, w')) /\
     new_calls w w' =
       [GetPeerAddr h;
        LoggerDebug (LogOnError (_peer (hub_at w h)) error);
        EventCallback [error]]) /\
  (forall txid status blockNumber e' r,
     eventCallback l [VNull; txid; status; VNum (Number blockNumber)] = CbThrows e' ->
     _registration l = Some r ->
     (_onEvent txid status blockNumber (l, w)).1 = Returned tt).
Proof.
  intros Hh Hcb. destruct l, w. cbn [eventHub eventCallback] in Hh, Hcb. subst.
  split.
  - exec. rewrite Hcb. eexists. split; [reflexivity|]. by read_trace.
  - intros txid status bn e' r Hcb' Hreg.
    cbn [eventCallback _registration] in Hcb', Hreg. subst.
    exec. rewrite Hcb'. exec.
    destruct (truthy (reg_unregister r)); exec; [|done].
    by destruct h.
Qed.

Lemma onError_propagates_callback_exception_witness :
  let s := registered_tx1 failing_callback in
  eventHub s.1 = Some 1 /\
  eventCallback s.1 [VError "peer gone"] = CbThrows (VError "callback failed") /\
  exists w',
    _onError (VError "peer gone") s = (Threw (VError "callback failed"), (s.1, w')).
Proof.
  intros s. split; [reflexivity|]. split; [reflexivity|].
  destruct (onError_propagates_callback_exception
              (VError "peer gone") s.1 s.2 1 (VError "callback failed")
              eq_refl eq_refl)
    as [(w' & Hrun & _) _].
  exists w'. exact Hrun.
Defined.

(** ** Scenarios *)

(** Register [tx1] with [unregister] defaulted; a commit event with
    status VALID in block 42 arrives: the callback receives
    [(null, "tx1", "VALID", 42)] and the hub no longer watches [tx1]. *)
Example scenario_commit_then_unregistered :
  let s := registered_tx1 quiet_callback in
  let r := _onEvent (VStr "tx1") (VStr "VALID") (VStr "42") s in
  _transactionRegistrations (hub_at s.2 1) !! "tx1" =
    Some {| reg_handlers := "tx10.42";
            reg_options := {[ "unregister" := VBool true;
                              "disconnect" := VBool true ]} |} /\
  r.1 = Returned tt /\
  List.filter is_callback (new_calls s.2 r.2.2) =
    [EventCallback [VNull; VStr "tx1"; VStr "VALID"; VNum (Int 42)]] /\
  _registered r.2.1 = false /\
  _transactionRegistrations (hub_at r.2.2 1) !! "tx1" = None.
Proof. vm_compute. repeat split. Qed.

(** A block number delivered as a number is passed on as it came. *)
Example scenario_commit_numeric_block :
  let s := registered_tx1 quiet_callback in
  let r := _onEvent (VStr "tx1") (VStr "VALID") (VNum (Int 42)) s in
  List.filter is_callback (new_calls s.2 r.2.2) =
    [EventCallback [VNull; VStr "tx1"; VStr "VALID"; VNum (Int 42)]].
Proof. vm_compute. reflexivity. Qed.

(** Two listeners, for [tx1] and [tx2], register on the same bound hub 7:
    both watches sit on hub 7 and the manager is never asked. *)
Example scenario_distinct_ids_share_hub :
  let l1 := set_eventHub (Some 7) (listener_tx1 quiet_callback) in
  let l2 := set_eventHub (Some 7) (listener_tx2 quiet_callback) in
  let r1 := register 2 (l1, world_idle ∅) in
  let r2 := register 2 (l2, r1.2.2) in
  r1.1 = Returned tt /\ r2.1 = Returned tt /\
  eventHub r1.2.1 = Some 7 /\ eventHub r2.2.1 = Some 7 /\
  dom (_transactionRegistrations (hub_at r2.2.2 7)) = {[ "tx1"; "tx2" ]} /\
  calls r2.2.2 =
    [BaseRegister "tx10.42";
     RegisterTxEvent 7 "tx1" {[ "unregister" := VBool true ]}; Connect 7 false;
     BaseRegister "tx20.43";
     RegisterTxEvent 7 "tx2" {[ "unregister" := VBool true ]}; Connect 7 false].
Proof. vm_compute. repeat split. Qed.

(** A second listener for the same [tx1] on hub 7 is moved to a new hub. *)
Example scenario_same_id_moves_on :
  let l1 := set_eventHub (Some 7) (listener_tx1 quiet_callback) in
  let l1' := set_eventHub (Some 7)
               (new_CommitEventListener "0.77" "tx1" quiet_callback 0 (VBool true)) in
  let r1 := register 2 (l1, world_idle ∅) in
  let r2 := register 2 (l1', r1.2.2) in
  eventHub r1.2.1 = Some 7 /\ eventHub r2.2.1 = Some 8 /\
  reg_handlers <$> _transactionRegistrations (hub_at r2.2.2 7) !! "tx1" = Some "tx10.42" /\
  reg_handlers <$> _transactionRegistrations (hub_at r2.2.2 8) !! "tx1" = Some "tx10.77".
Proof. vm_compute. repeat split. Qed.

(** ** Further properties of the listener *)

(** [unregister], lines 59-64, in one step. *)
Lemma unregister_run l w :
  unregister (l, w) =
  (Returned tt,
   (set_registered false l,
    match eventHub l with
    | Some h =>
        {| objects := objects w; hubs := without_watch l w h; manager := manager w;
           calls := calls w ++ [BaseUnregister (listenerName l);
                                UnregisterTxEvent h (transactionId l)] |}
    | None => add_call (BaseUnregister (listenerName l)) w
    end)).
Proof.
  destruct l, w. unfold without_watch. exec.
  destruct eventHub0; exec; by rewrite <- ?app_assoc.
Qed.

(** [_onEvent], lines 66-78, with a registration captured. *)
Lemma onEvent_run txid status blockNumber l w r :
  _registration l = Some r ->
  let args := [VNull; txid; status; VNum (Number blockNumber)] in
  let w1 :=
    {| objects := objects w; hubs := hubs w; manager := manager w;
       calls := calls w ++ [LoggerDebug (LogOnEvent txid); EventCallback args] ++
                match eventCallback l args with
                | CbReturns => []
                | CbThrows e => [LoggerDebug (LogOnEventCallbackError e)]
                end |} in
  _onEvent txid status blockNumber (l, w) =
  if truthy (reg_unregister r) then unregister (l, w1) else (Returned tt, (l, w1)).
Proof.
  intros Hreg. cbv zeta. destruct l, w. cbn [_registration] in Hreg. subst. exec.
  destruct (eventCallback0 _); exec;
    (destruct (truthy (reg_unregister r)); exec;
     [destruct eventHub0; exec|]); by rewrite <- ?app_assoc.
Qed.

Lemma new_calls_trans w w1 w2 a b :
  calls w1 = calls w ++ a -> calls w2 = calls w1 ++ b ->
  new_calls w w2 = a ++ b.
Proof. intros H1 H2. apply new_calls_app. by rewrite H2, H1, app_assoc. Qed.

(** X2.  [unregister] never throws, clears the flag, and leaves the hub
    reference and the captured registration as they were; calling it a
    second time changes nothing but the trace. *)
Theorem unregister_is_idempotent l w :
  let r1 := unregister (l, w) in
  let r2 := unregister r1.2 in
  r1.1 = Returned tt /\ r2.1 = Returned tt /\
  _registered r1.2.1 = false /\
  eventHub r1.2.1 = eventHub l /\ _registration r1.2.1 = _registration l /\
  r2.2.1 = r1.2.1 /\ hubs r2.2.2 = hubs r1.2.2 /\ objects r2.2.2 = objects r1.2.2.
Proof.
  cbv zeta. rewrite (unregister_run l w). cbn [fst snd].
  rewrite unregister_run. cbn [fst snd].
  do 6 (split; [done|]). cbn [eventHub set_registered].
  destruct (eventHub l) as [h|]; [|done]. split; [|done].
  unfold without_watch, hub_at. cbn [hubs transactionId].
  rewrite lookup_total_insert_eq.
  cbn [_transactionRegistrations set_hub_registrations _peer _connect].
  by rewrite delete_delete_eq, insert_insert_eq.
Qed.

(** X3.  [unregister] removes the watch kept under the listener's
    transaction id on the bound hub whoever installed it: bound to a hub
    on which another listener watches the same transaction, it removes
    that listener's watch. *)
Theorem unregister_removes_watch_of_another_listener l w h r :
  eventHub l = Some h ->
  _transactionRegistrations (hub_at w h) !! transactionId l = Some r ->
  reg_handlers r <> listenerName l ->
  let w' := (unregister (l, w)).2.2 in
  _transactionRegistrations (hub_at w' h) !! transactionId l = None /\
  new_calls w w' =
    [BaseUnregister (listenerName l); UnregisterTxEvent h (transactionId l)].
Proof.
  intros Hh _ _. cbv zeta. rewrite unregister_run, Hh. cbn [snd]. split.
  - unfold without_watch, hub_at. cbn [hubs]. rewrite lookup_total_insert_eq.
    apply lookup_delete_eq.
  - by apply new_calls_app.
Qed.

Lemma unregister_removes_watch_of_another_listener_witness :
  let l := set_eventHub (Some 7) (listener_tx1 quiet_callback) in
  let w := world_watching ∅ in
  reg_handlers <$> _transactionRegistrations (hub_at w 7) !! "tx1" = Some "tx10.11" /\
  listenerName l = "tx10.42" /\
  _transactionRegistrations (hub_at (unregister (l, w)).2.2 7) !! "tx1" = None.
Proof.
  intros l w. split; [reflexivity|]. split; [reflexivity|].
  refine (proj1 (unregister_removes_watch_of_another_listener l w 7
            {| reg_handlers := "tx10.11";
               reg_options := {[ "unregister" := VBool true ]} |}
            eq_refl eq_refl _)).
  vm_compute. discriminate.
Defined.

(** X4.  [unregister] touches nothing but the one table entry: every
    watch for another transaction id, every other hub, the peer and the
    connection request of the bound hub and all options objects are as
    before, and neither the manager nor the callback is called. *)
Theorem unregister_leaves_the_rest l w :
  let w' := (unregister (l, w)).2.2 in
  objects w' = objects w /\
  (forall h t, t <> transactionId l ->
     _transactionRegistrations (hub_at w' h) !! t =
     _transactionRegistrations (hub_at w h) !! t) /\
  (forall h, eventHub l <> Some h -> hub_at w' h = hub_at w h) /\
  (forall h, _peer (hub_at w' h) = _peer (hub_at w h) /\
             _connect (hub_at w' h) = _connect (hub_at w h)) /\
  Forall (fun c => match c with
                   | BaseUnregister _ | UnregisterTxEvent _ _ => True
                   | _ => False
                   end) (new_calls w w').
Proof.
  cbv zeta. rewrite unregister_run. cbn [snd].
  destruct (eventHub l) as [h0|] eqn:Hh.
  - cbn [objects hubs]. unfold without_watch, hub_at. cbn [hubs].
    split; [done|]. split; [|split; [|split]].
    + intros h t Ht. destruct (decide (h0 = h)) as [->|Hne].
      * rewrite lookup_total_insert_eq. by apply lookup_delete_ne.
      * by rewrite lookup_total_insert_ne.
    + intros h Hne. rewrite lookup_total_insert_ne; [done|congruence].
    + intros h. destruct (decide (h0 = h)) as [->|Hne].
      * by rewrite lookup_total_insert_eq.
      * by rewrite lookup_total_insert_ne.
    + erewrite new_calls_app by reflexivity. by repeat constructor.
  - split; [done|]. split; [done|]. split; [done|]. split; [done|].
    erewrite new_calls_app by reflexivity. by repeat constructor.
Qed.

(** X5.  With a hub bound that does not yet watch the listener's
    transaction, [register] followed by [unregister] gives the hub back
    its registration table: the two calls leave the flag cleared, the
    same hub bound, the options untouched, and the table as it was. *)
Theorem register_then_unregister_restores_table n l w h0 :
  eventHub l = Some h0 ->
  _transactionRegistrations (hub_at w h0) !! transactionId l = None ->
  let s1 := (register (S n) (l, w)).2 in
  let s2 := (unregister s1).2 in
  eventHub s2.1 = Some h0 /\ _registered s2.1 = false /\
  objects s2.2 = objects w /\
  _transactionRegistrations (hub_at s2.2 h0) = _transactionRegistrations (hub_at w h0) /\
  _peer (hub_at s2.2 h0) = _peer (hub_at w h0) /\
  (forall h, h <> h0 -> hub_at s2.2 h = hub_at w h).
Proof.
  intros Hh Hfree. cbv zeta.
  pose proof (register_bound n l w h0 Hh) as Hrun.
  unfold resolve_conflict in Hrun. rewrite Hfree in Hrun. cbv zeta in Hrun.
  rewrite Hrun. cbn [snd]. rewrite unregister_run. cbn [fst snd eventHub set_registered
    set_registration set_eventHub _registered objects].
  split; [done|]. split; [done|]. split; [done|].
  unfold without_watch, hub_at. cbn [hubs transactionId].
  rewrite !lookup_total_insert_eq.
  cbn [set_hub_registrations _transactionRegistrations _peer _connect].
  split; [by apply delete_insert_id|]. split; [done|].
  intros h Hne. by rewrite !lookup_total_insert_ne.
Qed.

Lemma register_then_unregister_restores_table_witness :
  let l := set_eventHub (Some 7) (listener_tx2 quiet_callback) in
  let w := world_watching ∅ in
  eventHub l = Some 7 /\
  _transactionRegistrations (hub_at w 7) !! transactionId l = None /\
  _transactionRegistrations (hub_at (unregister (register 1 (l, w)).2).2.2 7) =
  _transactionRegistrations (hub_at w 7).
Proof.
  intros l w. split; [reflexivity|]. split; [reflexivity|].
  exact (proj1 (proj2 (proj2 (proj2
           (register_then_unregister_restores_table 0 l w 7 eq_refl eq_refl))))).
Defined.

(** X6.  After [unregister] the hub stays bound, so a further [register]
    goes down the main path: it installs the watch on the same hub again
    without asking the manager, and leaves the listener and the hubs as
    the first [register] left them. *)
Theorem reregister_reuses_bound_hub n m l w h0 :
  eventHub l = Some h0 ->
  _transactionRegistrations (hub_at w h0) !! transactionId l = None ->
  let s1 := (register (S n) (l, w)).2 in
  let s2 := (unregister s1).2 in
  let r3 := register (S m) s2 in
  r3.1 = Returned tt /\
  r3.2.1 = s1.1 /\ hubs r3.2.2 = hubs s1.2 /\ objects r3.2.2 = objects w /\
  new_calls s2.2 r3.2.2 =
    [BaseRegister (listenerName l);
     RegisterTxEvent h0 (transactionId l) (merged_options w l);
     Connect h0 (negb (truthy (_filtered l)))].
Proof.
  intros Hh Hfree. cbv zeta.
  pose proof (register_bound n l w h0 Hh) as Hrun.
  unfold resolve_conflict in Hrun. rewrite Hfree in Hrun. cbv zeta in Hrun.
  rewrite Hrun. cbn [snd]. rewrite unregister_run.
  cbn [fst snd eventHub set_registered set_registration set_eventHub].
  match goal with |- context [register (S m) (?l2, ?w2)] =>
    pose proof (register_bound m l2 w2 h0 eq_refl) as Hrun2;
    assert (Hfree2 : _transactionRegistrations (hub_at w2 h0) !! transactionId l2 = None)
  end.
  { unfold without_watch, hub_at. cbn [hubs transactionId].
    rewrite !lookup_total_insert_eq. apply lookup_delete_eq. }
  unfold resolve_conflict in Hrun2. rewrite Hfree2 in Hrun2. cbv zeta in Hrun2.
  rewrite Hrun2. cbn [fst snd].
  split; [done|]. split; [by destruct l|]. split; [|split; [done|]].
  - cbn [hubs]. unfold without_watch, hub_at. cbn [hubs transactionId listenerName
      set_registered set_registration set_eventHub].
    rewrite !lookup_total_insert_eq.
    cbn [set_hub_registrations _transactionRegistrations _peer _connect].
    rewrite !insert_insert_eq, insert_delete_eq, insert_insert_eq.
    unfold merged_options, object_at. by cbn [objects options].
  - erewrite new_calls_app by reflexivity.
    unfold merged_options, object_at. by cbn.
Qed.

Lemma reregister_reuses_bound_hub_witness :
  let l := set_eventHub (Some 7) (listener_tx2 quiet_callback) in
  let w := world_watching ∅ in
  let s2 := (unregister (register 1 (l, w)).2).2 in
  eventHub l = Some 7 /\
  _transactionRegistrations (hub_at w 7) !! transactionId l = None /\
  new_calls s2.2 (register 1 s2).2.2 =
    [BaseRegister "tx20.43";
     RegisterTxEvent 7 "tx2" {[ "unregister" := VBool true ]};
     Connect 7 false].
Proof.
  intros l w s2. split; [reflexivity|]. split; [reflexivity|].
  exact (proj2 (proj2 (proj2 (proj2
           (reregister_reuses_bound_hub 0 0 l w 7 eq_refl eq_refl))))).
Defined.

(** X7.  A [register] that returns leaves the listener ready for events:
    a hub is bound, the flag is set, and the registration the listener
    captured is the record the bound hub keeps under the listener's
    transaction id. *)
Theorem register_success_leaves_listener_ready n l w l' w' :
  register n (l, w) = (Returned tt, (l', w')) ->
  exists h r,
    eventHub l' = Some h /\ _registered l' = true /\
    _registration l' = Some r /\
    _transactionRegistrations (hub_at w' h) !! transactionId l' = Some r /\
    transactionId l' = transactionId l /\ reg_handlers r = listenerName l.
Proof.
  intros Hrun.
  assert (Hb : forall m s h0, eventHub s.1 = Some h0 ->
             register m s = (Returned tt, (l', w')) ->
             exists h r,
               eventHub l' = Some h /\ _registered l' = true /\
               _registration l' = Some r /\
               _transactionRegistrations (hub_at w' h) !! transactionId l' = Some r /\
               transactionId l' = transactionId s.1 /\
               reg_handlers r = listenerName s.1).
  { intros [|m] [l0 w0] h0 Hh Hr; [done|].
    pose proof (register_bound m l0 w0 h0 Hh) as Hrun0.
    destruct (resolve_conflict l0 w0 h0) as [[h hs] pre]. cbv zeta in Hrun0.
    rewrite Hrun0 in Hr. injection Hr as <- <-.
    eexists h, _. split; [done|]. split; [done|]. split; [done|].
    split; [|done]. unfold hub_at. cbn [hubs transactionId set_registered
      set_registration set_eventHub].
    rewrite lookup_total_insert_eq. cbn [_transactionRegistrations].
    by rewrite lookup_insert_eq. }
  destruct (eventHub l) as [h0|] eqn:Hh; [by apply (Hb n (l, w) h0)|].
  destruct n as [|n]; [done|].
  rewrite (register_unbound n l w Hh), (fallback_unbound n _ _ Hh) in Hrun.
  destruct (truthy _); [done|]. cbn [manager hubs add_call] in Hrun.
  destruct (getReplayEventHub _ _) as [hr hs].
  eapply Hb in Hrun; [|reflexivity]. by destruct l.
Qed.

Lemma register_success_leaves_listener_ready_witness :
  let l := listener_tx1 quiet_callback in
  let s := registered_tx1 quiet_callback in
  register 2 (l, world_with ∅) = (Returned tt, s) /\
  exists h r,
    eventHub s.1 = Some h /\ _registered s.1 = true /\
    _registration s.1 = Some r /\
    _transactionRegistrations (hub_at s.2 h) !! "tx1" = Some r.
Proof.
  intros l s.
  assert (Hrun : register 2 (l, world_with ∅) = (Returned tt, (s.1, s.2)))
    by (vm_compute; reflexivity).
  split; [exact Hrun|].
  destruct (register_success_leaves_listener_ready 2 l (world_with ∅) s.1 s.2 Hrun)
    as (h & r & H1 & H2 & H3 & H4 & _).
  exists h, r. split; [exact H1|]. split; [exact H2|]. split; [exact H3|exact H4].
Defined.

(** X8.  The conflict check agrees with what [register] and [unregister]
    did: right after a [register] that returned, the check on the bound
    hub answers true; right after the [unregister] that follows, it
    answers false; the check itself changes nothing. *)
Theorem isAlreadyRegistered_follows_register_and_unregister n l w l' w' :
  register n (l, w) = (Returned tt, (l', w')) ->
  _isAlreadyRegistered (eventHub l') (l', w') = (Returned true, (l', w')) /\
  let s := (unregister (l', w')).2 in
  _isAlreadyRegistered (eventHub s.1) s = (Returned false, s).
Proof.
  intros Hrun.
  destruct (register_returns_ready n l w l' w' Hrun) as (h & r & Hh & _ & _ & Htab).
  split.
  - rewrite Hh. unfold _isAlreadyRegistered, bind, world, this, ret. cbn [fst snd].
    by rewrite Htab.
  - cbv zeta. rewrite unregister_run, Hh. cbn [snd fst eventHub set_registered].
    rewrite Hh. unfold _isAlreadyRegistered, bind, world, this, ret. cbn [fst snd].
    unfold without_watch, hub_at. cbn [hubs transactionId].
    rewrite lookup_total_insert_eq. cbn [set_hub_registrations _transactionRegistrations].
    by rewrite lookup_delete_eq.
Qed.

Lemma isAlreadyRegistered_follows_register_and_unregister_witness :
  let l := listener_tx1 quiet_callback in
  let s := registered_tx1 quiet_callback in
  register 2 (l, world_with ∅) = (Returned tt, s) /\
  _isAlreadyRegistered (eventHub s.1) s = (Returned true, s).
Proof.
  intros l s.
  assert (Hrun : register 2 (l, world_with ∅) = (Returned tt, (s.1, s.2)))
    by (vm_compute; reflexivity).
  split; [exact Hrun|].
  exact (proj1 (isAlreadyRegistered_follows_register_and_unregister
                  2 l (world_with ∅) s.1 s.2 Hrun)).
Defined.

(** X9.  On a shared hub that does not yet watch the listener's
    transaction, [register] adds its own entry and nothing else: the
    watches for other transaction ids, the hub's peer, the other hubs
    and the options are as before, and the manager is not asked. *)
Theorem register_keeps_other_watches n l w h0 :
  eventHub l = Some h0 ->
  _transactionRegistrations (hub_at w h0) !! transactionId l = None ->
  let w' := (register (S n) (l, w)).2.2 in
  (forall t, t <> transactionId l ->
     _transactionRegistrations (hub_at w' h0) !! t =
     _transactionRegistrations (hub_at w h0) !! t) /\
  _peer (hub_at w' h0) = _peer (hub_at w h0) /\
  (forall h, h <> h0 -> hub_at w' h = hub_at w h) /\
  objects w' = objects w /\
  List.filter is_hub_call (new_calls w w') =
    [RegisterTxEvent h0 (transactionId l) (merged_options w l);
     Connect h0 (negb (truthy (_filtered l)))].
Proof.
  intros Hh Hfree. cbv zeta.
  pose proof (register_bound n l w h0 Hh) as Hrun.
  unfold resolve_conflict in Hrun. rewrite Hfree in Hrun. cbv zeta in Hrun.
  rewrite Hrun. cbn [snd]. unfold hub_at. cbn [hubs objects].
  split; [|split; [|split; [|split; [done|]]]].
  - intros t Ht. rewrite lookup_total_insert_eq. cbn [_transactionRegistrations].
    by apply lookup_insert_ne.
  - by rewrite lookup_total_insert_eq.
  - intros h Hne. by rewrite lookup_total_insert_ne.
  - by erewrite new_calls_app by reflexivity.
Qed.

Lemma register_keeps_other_watches_witness :
  let l := set_eventHub (Some 7) (listener_tx2 quiet_callback) in
  let w := world_watching ∅ in
  let w' := (register 1 (l, w)).2.2 in
  eventHub l = Some 7 /\
  _transactionRegistrations (hub_at w 7) !! transactionId l = None /\
  _transactionRegistrations (hub_at w' 7) !! "tx1" =
  _transactionRegistrations (hub_at w 7) !! "tx1".
Proof.
  intros l w w'. split; [reflexivity|]. split; [reflexivity|].
  refine (proj1 (register_keeps_other_watches 0 l w 7 eq_refl eq_refl) "tx1" _).
  vm_compute. discriminate.
Defined.

(** X10.  When [register] finds its transaction already watched on the
    bound hub and the manager answers with another hub without touching
    the bound one, the bound hub is left exactly as it was, the other
    listener's watch included; the listener's own watch sits on the hub
    the manager gave, and it is the registration the listener captured. *)
Theorem conflict_leaves_bound_hub_alone n l w h0 r0 :
  eventHub l = Some h0 ->
  _transactionRegistrations (hub_at w h0) !! transactionId l = Some r0 ->
  let p := _peer (hub_at w h0) in
  let answer :=
    if truthy (prop (object_at w (options l)) "fixedEventHub")
    then getFixedEventHub (manager w) p (hubs w)
    else getEventHub (manager w) p true (hubs w) in
  answer.1 <> h0 ->
  answer.2 !!! h0 = hub_at w h0 ->
  let s' := (register (S n) (l, w)).2 in
  hub_at s'.2 h0 = hub_at w h0 /\
  _transactionRegistrations (hub_at s'.2 h0) !! transactionId l = Some r0 /\
  eventHub s'.1 = Some answer.1 /\
  _registration s'.1 =
    Some {| reg_handlers := listenerName l; reg_options := merged_options w l |} /\
  _transactionRegistrations (hub_at s'.2 answer.1) !! transactionId l = _registration s'.1.
Proof.
  intros Hh Hbusy. cbv zeta.
  pose proof (register_bound n l w h0 Hh) as Hrun.
  unfold resolve_conflict in Hrun. rewrite Hbusy in Hrun.
  destruct (truthy _).
  - destruct (getFixedEventHub _ _ _) as [h hs]. cbv zeta in Hrun. cbn [fst snd].
    intros Hne Hsame. rewrite Hrun. cbn [fst snd]. unfold hub_at in *. cbn [hubs].
    rewrite lookup_total_insert_ne by done. rewrite Hsame.
    split; [done|]. split; [done|]. split; [done|]. split; [done|].
    rewrite lookup_total_insert_eq. cbn [_transactionRegistrations].
    by rewrite lookup_insert_eq.
  - destruct (getEventHub _ _ _ _) as [h hs]. cbv zeta in Hrun. cbn [fst snd].
    intros Hne Hsame. rewrite Hrun. cbn [fst snd]. unfold hub_at in *. cbn [hubs].
    rewrite lookup_total_insert_ne by done. rewrite Hsame.
    split; [done|]. split; [done|]. split; [done|]. split; [done|].
    rewrite lookup_total_insert_eq. cbn [_transactionRegistrations].
    by rewrite lookup_insert_eq.
Qed.

Lemma conflict_leaves_bound_hub_alone_witness :
  let l := set_eventHub (Some 7) (listener_tx1 quiet_callback) in
  let w := world_watching ∅ in
  let s' := (register 1 (l, w)).2 in
  eventHub l = Some 7 /\
  reg_handlers <$> _transactionRegistrations (hub_at w 7) !! "tx1" = Some "tx10.11" /\
  hub_at s'.2 7 = hub_at w 7 /\
  eventHub s'.1 = Some 8.
Proof.
  intros l w s'. split; [reflexivity|]. split; [reflexivity|].
  assert (Hne : (getEventHub (manager w) (_peer (hub_at w 7)) true (hubs w)).1 <> 7)
    by (vm_compute; discriminate).
  assert (Hsame : (getEventHub (manager w) (_peer (hub_at w 7)) true (hubs w)).2 !!! 7
                  = hub_at w 7)
    by (vm_compute; reflexivity).
  destruct (conflict_leaves_bound_hub_alone 0 l w 7
              {| reg_handlers := "tx10.11";
                 reg_options := {[ "unregister" := VBool true ]} |}
              eq_refl eq_refl Hne Hsame)
    as (H1 & _ & H3 & _).
  split; [exact H1|exact H3].
Defined.

(** X11.  A commit event handed to a listener that has captured no
    registration still reaches the callback, once; the handler then
    fails with a TypeError on reading the registration's flag, and no
    unregistration is attempted. *)
Theorem onEvent_without_registration_throws txid status blockNumber l w :
  _registration l = None ->
  exists message w',
    _onEvent txid status blockNumber (l, w) = (Threw (VTypeError message), (l, w')) /\
    hubs w' = hubs w /\ objects w' = objects w /\
    List.filter is_callback (new_calls w w') =
      [EventCallback [VNull; txid; status; VNum (Number blockNumber)]] /\
    List.filter is_hub_call (new_calls w w') = [].
Proof.
  intros Hreg. destruct l as [tid name o cb hub reg flag fil], w as [objs hs mgr cs].
  simpl in Hreg. subst. exec.
  destruct (cb _); exec; eexists _, _;
    (split; [reflexivity|]); (split; [done|]); (split; [done|]); by read_trace.
Qed.

Lemma onEvent_without_registration_throws_witness :
  let l := listener_tx1 quiet_callback in
  let w := world_with ∅ in
  _registration l = None /\
  exists message w',
    _onEvent (VStr "tx1") (VStr "VALID") (VStr "42") (l, w)
      = (Threw (VTypeError message), (l, w')) /\
    List.filter is_callback (new_calls w w') =
      [EventCallback [VNull; VStr "tx1"; VStr "VALID"; VNum (Int 42)]].
Proof.
  intros l w. split; [reflexivity|].
  destruct (onEvent_without_registration_throws
              (VStr "tx1") (VStr "VALID") (VStr "42") l w eq_refl)
    as (message & w' & Hrun & _ & _ & Hcb & _).
  exists message, w'. split; [exact Hrun|exact Hcb].
Defined.

(** X12.  An error event handed to a listener with no hub bound never
    reaches the callback: building the log line reads the peer address
    off the hub, which throws a TypeError before anything else happens;
    nothing is logged, called or changed. *)
Theorem onError_without_hub_drops_error error l w :
  eventHub l = None ->
  exists message,
    _onError error (l, w) = (Threw (VTypeError message), (l, w)).
Proof.
  intros Hh. destruct l as [tid name o cb hub reg flag fil], w as [objs hs mgr cs].
  simpl in Hh. subst. exec. by eexists.
Qed.

Lemma onError_without_hub_drops_error_witness :
  let l := listener_tx1 quiet_callback in
  let w := world_with ∅ in
  eventHub l = None /\
  exists message,
    _onError (VError "peer gone") (l, w) = (Threw (VTypeError message), (l, w)).
Proof.
  intros l w. split; [reflexivity|].
  exact (onError_without_hub_drops_error (VError "peer gone") l w eq_refl).
Defined.

(** X13.  With a registration captured, [_onEvent] always returns
    normally, and what it does to the listener and the hubs is decided
    by the registration's [unregister] flag alone, not by what the
    callback did: with the flag set the listener is unregistered (flag
    cleared, watch removed from the bound hub), otherwise listener and
    hubs are unchanged; the options are never touched. *)
Theorem onEvent_effect_is_set_by_unregister_flag txid status blockNumber l w r :
  _registration l = Some r ->
  exists l' w',
    _onEvent txid status blockNumber (l, w) = (Returned tt, (l', w')) /\
    objects w' = objects w /\
    if truthy (reg_unregister r) then
      l' = set_registered false l /\
      hubs w' = match eventHub l with
                | Some h => without_watch l w h
                | None => hubs w
                end
    else l' = l /\ hubs w' = hubs w.
Proof.
  intros Hreg. rewrite (onEvent_run txid status blockNumber l w r Hreg).
  destruct (truthy (reg_unregister r)).
  - rewrite unregister_run. cbn [eventHub]. eexists _, _. split; [reflexivity|].
    by destruct (eventHub l).
  - by eexists _, _.
Qed.

Lemma onEvent_effect_is_set_by_unregister_flag_witness :
  let s := registered_tx1 quiet_callback in
  is_Some (_registration s.1) /\
  exists l' w',
    _onEvent (VStr "tx1") (VStr "VALID") (VStr "42") s = (Returned tt, (l', w')) /\
    _registered l' = false.
Proof.
  intros s. split; [by eexists|].
  destruct (onEvent_effect_is_set_by_unregister_flag
              (VStr "tx1") (VStr "VALID") (VStr "42") s.1 s.2 _ eq_refl)
    as (l' & w' & Hrun & _ & Hl & _).
  exists l', w'. split; [exact Hrun|]. rewrite Hl. reflexivity.
Defined.

(** [_onError], lines 80-83, with a hub bound. *)
Lemma onError_run error l w h :
  eventHub l = Some h ->
  _onError error (l, w) =
  (match eventCallback l [error] with
   | CbReturns => Returned tt
   | CbThrows e => Threw e
   end,
   (l, {| objects := objects w; hubs := hubs w; manager := manager w;
          calls := calls w ++ [GetPeerAddr h;
                               LoggerDebug (LogOnError (_peer (hub_at w h)) error);
                               EventCallback [error]] |})).
Proof.
  intros Hh. destruct l as [tid name o cb hub reg flag fil], w as [objs hs mgr cs].
  simpl in Hh. subst. exec. destruct (cb _); exec; by rewrite <- !app_assoc.
Qed.

Lemma deliver_errors_trace errors : forall l w h,
  eventHub l = Some h ->
  Forall (fun e => eventCallback l [e] = CbReturns) errors ->
  exists w' cs,
    deliver_errors errors (l, w) = (Returned tt, (l, w')) /\
    hubs w' = hubs w /\ objects w' = objects w /\
    calls w' = calls w ++ cs /\
    List.filter is_callback cs = map (fun e => EventCallback [e]) errors /\
    Forall (fun c => match c with
                     | BaseUnregister _ | UnregisterTxEvent _ _ => False
                     | _ => True
                     end) cs.
Proof.
  induction errors as [|e rest IH]; intros l w h Hh Hall.
  - exists w, []. rewrite app_nil_r. by repeat split.
  - inversion Hall as [|? ? He Hrest]; subst.
    cbn [deliver_errors]. unfold bind.
    rewrite (onError_run e l w h Hh), He.
    match goal with |- context [deliver_errors rest (l, ?w1)] =>
      destruct (IH l w1 h Hh Hrest) as (w' & cs & Hrun & Hhubs & Hobj & Hcalls & Hcb & Hno)
    end.
    exists w', ([GetPeerAddr h; LoggerDebug (LogOnError (_peer (hub_at w h)) e);
                 EventCallback [e]] ++ cs).
    split; [exact Hrun|]. split; [done|]. split; [done|].
    split; [by rewrite Hcalls; cbn [calls]; rewrite <- app_assoc|].
    split; [cbn; by rewrite Hcb|].
    by repeat constructor.
Qed.

(** X14.  However many error events the hub delivers, each one reaches
    the callback, in order and with the error alone, as long as the
    callback returns; the listener is never unregistered on the way and
    the hubs and options stay as they were. *)
Theorem every_error_event_reaches_callback errors l w h :
  eventHub l = Some h ->
  Forall (fun e => eventCallback l [e] = CbReturns) errors ->
  exists w',
    deliver_errors errors (l, w) = (Returned tt, (l, w')) /\
    hubs w' = hubs w /\ objects w' = objects w /\
    List.filter is_callback (new_calls w w') = map (fun e => EventCallback [e]) errors /\
    Forall (fun c => match c with
                     | BaseUnregister _ | UnregisterTxEvent _ _ => False
                     | _ => True
                     end) (new_calls w w').
Proof.
  intros Hh Hall.
  destruct (deliver_errors_trace errors l w h Hh Hall)
    as (w' & cs & Hrun & Hhubs & Hobj & Hcalls & Hcb & Hno).
  exists w'. rewrite (new_calls_app _ _ _ Hcalls). by repeat split.
Qed.

Lemma every_error_event_reaches_callback_witness :
  let s := registered_tx1 quiet_callback in
  let errors := [VError "peer gone"; VStr "stream closed"; VError "peer gone"] in
  eventHub s.1 = Some 1 /\
  Forall (fun e => eventCallback s.1 [e] = CbReturns) errors /\
  exists w',
    deliver_errors errors s = (Returned tt, (s.1, w')) /\
    List.filter is_callback (new_calls s.2 w') =
      [EventCallback [VError "peer gone"]; EventCallback [VStr "stream closed"];
       EventCallback [VError "peer gone"]].
Proof.
  intros s errors.
  assert (Hall : Forall (fun e => eventCallback s.1 [e] = CbReturns) errors)
    by (repeat constructor).
  split; [reflexivity|]. split; [exact Hall|].
  destruct (every_error_event_reaches_callback errors s.1 s.2 1 eq_refl Hall)
    as (w' & Hrun & _ & _ & Hcb & _).
  exists w'. split; [exact Hrun|exact Hcb].
Defined.

Lemma resolve_conflict_no_reentry l w h0 :
  List.filter is_baseRegister (resolve_conflict l w h0).2 = [].
Proof.
  unfold resolve_conflict.
  destruct (_ !! _); [|done].
  destruct (truthy _).
  - by destruct (getFixedEventHub _ _ _).
  - by destruct (getEventHub _ _ _ _).
Qed.

Lemma register_bound_entries n l w h0 :
  eventHub l = Some h0 ->
  exists l' w' cs,
    register (S n) (l, w) = (Returned tt, (l', w')) /\
    calls w' = calls w ++ cs /\
    length (List.filter is_baseRegister cs) = 1.
Proof.
  intros Hh. pose proof (register_bound n l w h0 Hh) as Hrun.
  pose proof (resolve_conflict_no_reentry l w h0) as Hpre.
  destruct (resolve_conflict l w h0) as [[h hs] pre]. cbv zeta in Hrun.
  cbn [snd] in Hpre. eexists _, _, _. split; [exact Hrun|]. split; [reflexivity|].
  cbn [app List.filter is_baseRegister]. rewrite List.filter_app, Hpre. done.
Qed.

(** X15.  [register] calls itself at most once.  With a hub bound, or
    when the fallback fails, the base class's [register] runs once; when
    the fallback acquires a hub it runs exactly twice.  So two units of
    fuel are all any call needs, and more fuel changes nothing. *)
Theorem register_reenters_at_most_once n l w :
  let r := register (S (S n)) (l, w) in
  r = register 2 (l, w) /\
  length (List.filter is_baseRegister (new_calls w r.2.2)) =
    match eventHub l with
    | Some _ => 1
    | None => if truthy (prop (object_at w (options l)) "fixedEventHub") then 1 else 2
    end.
Proof.
  cbv zeta. split; [apply register_fuel_enough|].
  destruct (eventHub l) as [h0|] eqn:Hh.
  - destruct (register_bound_entries (S n) l w h0 Hh) as (l' & w' & cs & -> & Hcalls & Hone).
    cbn [snd]. by rewrite (new_calls_app _ _ _ Hcalls).
  - rewrite (register_unbound (S n) l w Hh), (fallback_unbound (S n) _ _ Hh).
    replace (object_at _ (options l)) with (object_at w (options l)) by done.
    destruct (truthy _).
    + cbn [snd]. erewrite new_calls_app
        by (unfold add_call; cbn [calls]; rewrite <- !app_assoc; reflexivity).
      cbn [app List.filter is_baseRegister length]. f_equal.
      unfold cleanup_calls. rewrite Hh. by destruct (_registered l).
    + cbn [manager hubs add_call].
      destruct (getReplayEventHub _ _) as [hr hs].
      set (s1 := reentry _ _ _ hr hs).
      destruct (register_bound_entries n s1.1 s1.2 hr eq_refl)
        as (l' & w' & cs & Hrun & Hcalls & Hone).
      replace (register (S n) s1) with (register (S n) (s1.1, s1.2)) by (by destruct s1).
      rewrite Hrun. cbn [snd].
      erewrite new_calls_app
        by (rewrite Hcalls; unfold s1, reentry, add_call; cbn [calls snd];
            rewrite <- !app_assoc; reflexivity).
      cbn [app List.filter is_baseRegister length]. f_equal.
      rewrite List.filter_app, length_app.
      cbn [app List.filter is_baseRegister]. rewrite Hone.
      unfold cleanup_calls. rewrite Hh. by destruct (_registered l).
Qed.

(** X16.  [register] fails in one way only: it throws the error of line
    91 exactly when no hub is bound and [fixedEventHub] is set, and
    returns normally in every other state.  In particular the error of
    line 105, "Event hub not given", is never raised by [register]. *)
Theorem register_fails_only_for_fixed_hub_without_hub n l w :
  (register (S (S n)) (l, w)).1 =
  match eventHub l with
  | Some _ => Returned tt
  | None =>
      if truthy (prop (object_at w (options l)) "fixedEventHub")
      then Threw (VError ("Cannot use a fixed event hub without setting an event hub "
                          +:+ listenerName l))
      else Returned tt
  end.
Proof.
  destruct (eventHub l) as [h0|] eqn:Hh.
  - by destruct (register_bound_entries (S n) l w h0 Hh) as (l' & w' & cs & -> & _).
  - rewrite (register_unbound (S n) l w Hh), (fallback_unbound (S n) _ _ Hh).
    replace (object_at _ (options l)) with (object_at w (options l)) by done.
    destruct (truthy _); [done|]. cbn [manager hubs add_call].
    destruct (getReplayEventHub _ _) as [hr hs].
    set (s1 := reentry _ _ _ hr hs).
    destruct (register_bound_entries n s1.1 s1.2 hr eq_refl) as (l' & w' & cs & Hrun & _).
    replace (register (S n) s1) with (register (S n) (s1.1, s1.2)) by (by destruct s1).
    by rewrite Hrun.
Qed.

(** X17.  A [register] that fails for want of a fixed hub has already
    run the fallback's cleanup: a listener that was flagged registered
    comes out of the failed call with the flag cleared and the base
    class's [unregister] run. *)
Theorem failed_register_has_cleared_flag n l w :
  eventHub l = None ->
  truthy (prop (object_at w (options l)) "fixedEventHub") = true ->
  _registered l = true ->
  let r := register (S n) (l, w) in
  r.1 = Threw (fixed_hub_error l) /\
  _registered r.2.1 = false /\
  new_calls w r.2.2 =
    [BaseRegister (listenerName l); LoggerDebug LogNoEventHub;
     BaseUnregister (listenerName l)].
Proof.
  intros Hh Hfixed Hreg. cbv zeta.
  rewrite (register_unbound n l w Hh), (fallback_unbound n _ _ Hh).
  replace (object_at _ (options l)) with (object_at w (options l)) by done.
  rewrite Hfixed. cbn [fst snd]. split; [done|]. split; [done|].
  apply new_calls_app. unfold add_call. cbn [calls]. unfold cleanup_calls.
  rewrite Hreg, Hh. by rewrite <- !app_assoc.
Qed.

Lemma failed_register_has_cleared_flag_witness :
  let l := set_registered true (listener_tx1 quiet_callback) in
  let w := world_with {[ "fixedEventHub" := VBool true ]} in
  eventHub l = None /\
  truthy (prop (object_at w (options l)) "fixedEventHub") = true /\
  _registered l = true /\
  _registered (register 2 (l, w)).2.1 = false.
Proof.
  intros l w. split; [reflexivity|]. split; [reflexivity|]. split; [reflexivity|].
  exact (proj1 (proj2 (failed_register_has_cleared_flag 1 l w eq_refl eq_refl eq_refl))).
Defined.

(** X18.  Whatever path it takes and however it ends, [register] writes
    to no options object but the listener's own, and in that one to no
    property but [disconnect], which it either leaves or sets to true;
    with a hub bound at entry it writes to no options object at all. *)
Theorem register_writes_only_disconnect n l w :
  let w' := (register n (l, w)).2.2 in
  (forall o, o <> options l -> objects w' !! o = objects w !! o) /\
  (forall k, k <> "disconnect" ->
     object_at w' (options l) !! k = object_at w (options l) !! k) /\
  (object_at w' (options l) !! "disconnect" = object_at w (options l) !! "disconnect" \/
   object_at w' (options l) !! "disconnect" = Some (VBool true)) /\
  (is_Some (eventHub l) -> objects w' = objects w).
Proof.
  cbv zeta.
  destruct (register_summary n l w)
    as (out & l' & w' & cs & Hrun & _ & _ & Hobj & _).
  rewrite Hrun. cbn [snd]. unfold object_at.
  destruct Hobj as [[-> _]|[Hnone ->]].
  - repeat split; auto.
  - split; [|split; [|split]].
    + intros o Ho. by apply lookup_insert_ne.
    + intros k Hk. rewrite lookup_total_insert_eq. by apply lookup_insert_ne.
    + right. rewrite lookup_total_insert_eq. apply lookup_insert_eq.
    + rewrite Hnone. by intros [? [=]].
Qed.

(** X19.  The listener does not guard against a second delivery: after
    a commit event has been handled and the listener has unregistered
    itself, a further commit event handed to it is forwarded to the
    callback again and handled like the first; the second handling
    changes neither the listener nor the hubs. *)
Theorem second_commit_event_is_forwarded_again
    txid1 status1 block1 txid2 status2 block2 l w r :
  _registration l = Some r ->
  truthy (reg_unregister r) = true ->
  let r1 := _onEvent txid1 status1 block1 (l, w) in
  let r2 := _onEvent txid2 status2 block2 r1.2 in
  r1.1 = Returned tt /\ r2.1 = Returned tt /\
  _registered r1.2.1 = false /\
  List.filter is_callback (new_calls w r2.2.2) =
    [EventCallback [VNull; txid1; status1; VNum (Number block1)];
     EventCallback [VNull; txid2; status2; VNum (Number block2)]] /\
  r2.2.1 = r1.2.1 /\ hubs r2.2.2 = hubs r1.2.2.
Proof.
  intros Hreg Hflag. cbv zeta.
  rewrite (onEvent_run txid1 status1 block1 l w r Hreg), Hflag, unregister_run.
  cbn [fst snd].
  rewrite (onEvent_run txid2 status2 block2 (set_registered false l) _ r Hreg),
    Hflag, unregister_run.
  cbn [fst snd eventHub eventCallback set_registered].
  split; [done|]. split; [done|]. split; [done|].
  split; [|split; [done|]].
  - destruct (eventHub l) as [h|];
      destruct (eventCallback l [VNull; txid1; status1; VNum (Number block1)]);
      destruct (eventCallback l [VNull; txid2; status2; VNum (Number block2)]);
      (erewrite new_calls_app
         by (unfold add_call; cbn [calls]; rewrite <- !app_assoc; reflexivity));
      reflexivity.
  - destruct (eventHub l) as [h|]; [|done].
    unfold without_watch, hub_at. cbn [hubs transactionId].
    rewrite lookup_total_insert_eq.
    cbn [set_hub_registrations _transactionRegistrations _peer _connect].
    by rewrite delete_delete_eq, insert_insert_eq.
Qed.

Lemma second_commit_event_is_forwarded_again_witness :
  let s := registered_tx1 quiet_callback in
  let r1 := _onEvent (VStr "tx1") (VStr "VALID") (VStr "42") s in
  let r2 := _onEvent (VStr "tx1") (VStr "VALID") (VStr "42") r1.2 in
  is_Some (_registration s.1) /\
  List.filter is_callback (new_calls s.2 r2.2.2) =
    [EventCallback [VNull; VStr "tx1"; VStr "VALID"; VNum (Int 42)];
     EventCallback [VNull; VStr "tx1"; VStr "VALID"; VNum (Int 42)]].
Proof.
  intros s r1 r2. split; [by eexists|].
  exact (proj1 (proj2 (proj2 (proj2
    (second_commit_event_is_forwarded_again
       (VStr "tx1") (VStr "VALID") (VStr "42") (VStr "tx1") (VStr "VALID") (VStr "42")
       s.1 s.2 _ eq_refl eq_refl))))).
Defined.

(** X20.  Entered for a listener that is flagged registered and still has
    a hub bound, the fallback first takes the listener's watch off that
    hub and only then asks the manager: the manager is asked for the
    fixed handle of the old hub's peer when [fixedEventHub] is set and
    for a replay hub otherwise, it sees an arena in which the old hub no
    longer watches the transaction, and [register] is then called with
    the answer bound and the flag cleared. *)
Theorem fallback_unregisters_before_asking n l w h0 :
  eventHub l = Some h0 ->
  _registered l = true ->
  let fixed := truthy (prop (object_at w (options l)) "fixedEventHub") in
  let p := _peer (hub_at w h0) in
  let answer :=
    if fixed then getFixedEventHub (manager w) p (without_watch l w h0)
    else getReplayEventHub (manager w) (without_watch l w h0) in
  without_watch l w h0 !!! h0 =
    set_hub_registrations
      (delete (transactionId l) (_transactionRegistrations (hub_at w h0))) (hub_at w h0) /\
  exists l1 w1,
    _registerWithNewEventHub n (l, w) = register n (l1, w1) /\
    eventHub l1 = Some answer.1 /\ _registered l1 = false /\
    hubs w1 = answer.2 /\
    new_calls w w1 =
      [BaseUnregister (listenerName l); UnregisterTxEvent h0 (transactionId l);
       if fixed then GetFixedEventHub p else GetReplayEventHub].
Proof.
  intros Hh Hreg. cbv zeta. split.
  { unfold without_watch. by rewrite lookup_total_insert_eq. }
  rewrite (fallback_bound n l w h0 Hh). cbv zeta.
  unfold cleanup_hubs. rewrite Hreg, Hh. fold (without_watch l w h0).
  destruct (truthy _).
  - destruct (getFixedEventHub _ _ _) as [h hs].
    eexists _, _. split; [reflexivity|]. split; [done|]. split; [done|]. split; [done|].
    apply new_calls_app. cbn [calls]. unfold cleanup_calls. by rewrite Hreg, Hh.
  - destruct (getReplayEventHub _ _) as [h hs].
    eexists _, _. split; [reflexivity|]. split; [done|]. split; [done|]. split; [done|].
    apply new_calls_app. cbn [calls]. unfold cleanup_calls. by rewrite Hreg, Hh.
Qed.

Lemma fallback_unregisters_before_asking_witness :
  let s := registered_tx1 quiet_callback in
  eventHub s.1 = Some 1 /\ _registered s.1 = true /\
  exists l1 w1,
    _registerWithNewEventHub 1 s = register 1 (l1, w1) /\
    eventHub l1 = Some 2 /\
    _transactionRegistrations (hub_at w1 1) !! "tx1" = None /\
    new_calls s.2 w1 =
      [BaseUnregister "tx10.42"; UnregisterTxEvent 1 "tx1"; GetReplayEventHub].
Proof.
  intros s. split; [reflexivity|]. split; [reflexivity|].
  destruct (fallback_unregisters_before_asking 1 s.1 s.2 1 eq_refl eq_refl)
    as (_ & l1 & w1 & Hrun & Hl & _ & Hhubs & Hcalls).
  exists l1, w1. split; [exact Hrun|]. split; [exact Hl|].
  split; [|exact Hcalls].
  unfold hub_at. rewrite Hhubs. reflexivity.
Defined.
